(** * meal_max: the battle arena and the meal statistics

    A shallow embedding of [meal_max/models/battle_model.py] (class
    [BattleModel]) and of the part of the kitchen model (the meal store)
    its statistics rest on.

    Python values are modelled as follows.
    - [str] is [string]; one [ascii] stands for one character, so [len] is
      [String.length] (code points below 256).
    - [float] is the kernel's binary64 [float]; the arithmetic of
      [get_battle_score] and [battle] is IEEE arithmetic, NaN and signed
      zeros included.  An [int] operand of a float operation is converted
      first, as Python does ([float_of_int]).
    - An exception is a value of [exn]; a method that may raise and that
      may mutate its surroundings is a function [S -> (exn + A) * S]: the
      state reached when the exception is raised is kept, as in Python.
    - Objects are modelled by their values.  The only place where the
      source compares objects is [list.remove], see [py_same].
    - The calls to [logger] are left out: they format their arguments
      and change nothing the program reads. *)

From Stdlib Require Import ZArith List String Ascii Bool Lia.
From Stdlib Require Import Floats DecimalString.
From Stdlib Require Import QArith Permutation Sorted.
Import ListNotations.

Local Open Scope string_scope.
Local Open Scope Z_scope.

(** ** Exceptions *)

(** The source raises [ValueError] at every validation site; the
    specification names the sites by kind.  The others are raised by the
    language: [KeyError] by a failed [dict] subscript, [IndexError] by a
    list subscript out of range, [NotInList] (a [ValueError] of the
    interpreter's own) by [list.remove].  [ServiceUnavailable] is the
    failure of the random supplier. *)
Inductive kind :=
| InvalidInput
| NotFound
| Conflict
| Full
| InvalidState.

Inductive exn :=
| ValueError (k : kind) (msg : string)
| KeyError (key : string)
| IndexError
| NotInList
| ServiceUnavailable (msg : string).

(** ** State and exceptions *)

Module ES.

Definition t (S A : Type) : Type := S -> (exn + A) * S.

Definition ret {S A} (a : A) : t S A := fun s => (inr a, s).

Definition raise {S A} (e : exn) : t S A := fun s => (inl e, s).

Definition bind {S A B} (m : t S A) (k : A -> t S B) : t S B :=
  fun s =>
    match m s with
    | (inl e, s') => (inl e, s')
    | (inr a, s') => k a s'
    end.

Definition get {S} : t S S := fun s => (inr s, s).

Definition modify {S} (f : S -> S) : t S unit := fun s => (inr tt, f s).

(** Runs a computation on a component of the state. *)
Definition zoom {S T A} (proj : S -> T) (upd : T -> S -> S) (m : t T A)
  : t S A :=
  fun s => let '(r, x) := m (proj s) in (r, upd x s).

(** A pure computation that may raise. *)
Definition lift {S A} (r : exn + A) : t S A := fun s => (r, s).

End ES.

Declare Scope es_scope.
Delimit Scope es_scope with es.
Notation "x <- m ;; k" := (ES.bind m (fun x => k))
  (at level 61, m at next level, right associativity) : es_scope.
Notation "m ;; k" := (ES.bind m (fun _ => k))
  (at level 61, right associativity) : es_scope.

(** ** Numbers *)

(** [float(n)] for a Python [int] below 2^63 in absolute value: the lengths,
    weights and constants of this program. *)
Definition float_of_int (z : Z) : float :=
  if z <? 0 then PrimFloat.opp (PrimFloat.of_uint63 (Uint63.of_Z (- z)))
  else PrimFloat.of_uint63 (Uint63.of_Z z).

(** ** Meals *)

(** Modelled from the spec: the dataclass [Meal] is declared in the
    kitchen model, which is not among the sources; its fields are those
    the battle model reads and the tests construct,
    [Meal(id, meal, cuisine, price, difficulty)], with [price: float]. *)
Record Meal := mkMeal {
  id : Z;
  meal : string;
  cuisine : string;
  price : float;
  difficulty : string
}.

(** Bit-for-bit equality of two meals. *)
Definition Meal_beq (a b : Meal) : bool :=
  (id a =? id b) && String.eqb (meal a) (meal b)
  && String.eqb (cuisine a) (cuisine b)
  && PrimFloat.Leibniz.eqb (price a) (price b)
  && String.eqb (difficulty a) (difficulty b).

(** The generated [__eq__] of the dataclass: the tuples of fields are
    compared with [==]; on floats that is IEEE equality. *)
Definition Meal_eq (a b : Meal) : bool :=
  (id a =? id b) && String.eqb (meal a) (meal b)
  && String.eqb (cuisine a) (cuisine b)
  && PrimFloat.eqb (price a) (price b)
  && String.eqb (difficulty a) (difficulty b).

(** What [list.remove] and [in] test: [item is x or item == x].  Objects
    are modelled by their values, so identity is not observable; an object
    is identical to itself, hence bit-for-bit equal, and two bit-for-bit
    equal items are interchangeable in every list of values. *)
Definition py_same (a b : Meal) : bool := Meal_beq a b || Meal_eq a b.

(** [l.remove(x)]: deletes the first item that is or equals [x];
    [None] stands for [ValueError: list.remove(x): x not in list]. *)
Fixpoint list_remove (x : Meal) (l : list Meal) : option (list Meal) :=
  match l with
  | [] => None
  | y :: l' =>
      if py_same y x then Some l'
      else option_map (cons y) (list_remove x l')
  end.

(** ** The battle model *)

(** Calls to the collaborators of the battle model, in the order issued. *)
Inductive call :=
| GetRandom
| UpdateMealStats (meal_id : Z) (result : string).

(** [difficulty_modifier = {"HIGH": 1, "MED": 2, "LOW": 3}] *)
Definition difficulty_modifier : list (string * Z) :=
  [("HIGH", 1); ("MED", 2); ("LOW", 3)].

(** [d[key]] on a dict given by its items. *)
Fixpoint dict_get {V} (d : list (string * V)) (key : string) : option V :=
  match d with
  | [] => None
  | (k, v) :: d' => if String.eqb k key then Some v else dict_get d' key
  end.

Definition subscript {V} (d : list (string * V)) (key : string) : exn + V :=
  match dict_get d key with
  | Some v => inr v
  | None => inl (KeyError key)
  end.

Section BattleModel.

(** The collaborators imported by [battle_model.py] and absent from it:
    [get_random] of [utils.random_utils] and [update_meal_stats] of the
    kitchen model, acting on a state [Env] of their own (the service
    and the database). *)
Variable Env : Type.
Variable get_random : ES.t Env float.
Variable update_meal_stats : Z -> string -> ES.t Env unit.

(** [self.combatants], the collaborators' state, and the calls made. *)
Record World := mkWorld {
  combatants : list Meal;
  env : Env;
  trace : list call
}.

Definition M := ES.t World.

Definition set_combatants (l : list Meal) (w : World) : World :=
  mkWorld l (env w) (trace w).

Definition set_env (e : Env) (w : World) : World :=
  mkWorld (combatants w) e (trace w).

(** Records a call to a collaborator, before it is made. *)
Definition log (c : call) : M unit :=
  ES.modify (fun w => mkWorld (combatants w) (env w) (trace w ++ [c])%list).

Definition call_get_random : M float :=
  (log GetRandom ;; ES.zoom env set_env get_random)%es.

Definition call_update_meal_stats (meal_id : Z) (result : string) : M unit :=
  (log (UpdateMealStats meal_id result) ;;
   ES.zoom env set_env (update_meal_stats meal_id result))%es.

(** [score = (combatant.price * len(combatant.cuisine))
            - difficulty_modifier[combatant.difficulty]] *)
Definition get_battle_score (combatant : Meal) : M float :=
  (modifier <- ES.lift (subscript difficulty_modifier (difficulty combatant)) ;;
   ES.ret (PrimFloat.sub
             (PrimFloat.mul (price combatant)
                (float_of_int (Z.of_nat (String.length (cuisine combatant)))))
             (float_of_int modifier)))%es.

(** [return self.combatants] *)
Definition get_combatants : M (list Meal) :=
  (w <- ES.get ;; ES.ret (combatants w))%es.

(** [self.combatants.clear()] *)
Definition clear_combatants : M unit :=
  ES.modify (set_combatants []).

(** [if len(self.combatants) >= 2: raise ValueError(...)], then
    [self.combatants.append(combatant_data)]. *)
Definition prep_combatant (combatant_data : Meal) : M unit :=
  (w <- ES.get ;;
   if (2 <=? List.length (combatants w))%nat
   then ES.raise (ValueError Full
                    "Combatant list is full, cannot add more combatants.")
   else ES.modify
          (fun w => set_combatants (combatants w ++ [combatant_data])%list w))%es.

(** [self.combatants[i]] *)
Definition item (l : list Meal) (i : nat) : M Meal :=
  match nth_error l i with
  | Some c => ES.ret c
  | None => ES.raise IndexError
  end.

(** [self.combatants.remove(loser)] *)
Definition remove_combatant (loser : Meal) : M unit :=
  (w <- ES.get ;;
   match list_remove loser (combatants w) with
   | Some l => ES.modify (set_combatants l)
   | None => ES.raise NotInList
   end)%es.

(** [BattleModel.battle]: the length check, the two scores, the delta,
    the sample, the choice of the winner, the two statistics updates, the
    removal of the loser, and the winner's name as the result. *)
Definition battle : M string :=
  (w <- ES.get ;;
   if (List.length (combatants w) <? 2)%nat
   then ES.raise (ValueError InvalidState
                    "Two combatants must be prepped for a battle.")
   else
     combatant_1 <- item (combatants w) 0 ;;
     combatant_2 <- item (combatants w) 1 ;;
     score_1 <- get_battle_score combatant_1 ;;
     score_2 <- get_battle_score combatant_2 ;;
     let delta :=
       PrimFloat.div (PrimFloat.abs (PrimFloat.sub score_1 score_2))
         (float_of_int 100) in
     random_number <- call_get_random ;;
     let '(winner, loser) :=
       if PrimFloat.ltb random_number delta
       then (combatant_1, combatant_2)
       else (combatant_2, combatant_1) in
     call_update_meal_stats (id winner) "win" ;;
     call_update_meal_stats (id loser) "loss" ;;
     remove_combatant loser ;;
     ES.ret (meal winner))%es.

End BattleModel.

Arguments combatants {Env} _.
Arguments env {Env} _.
Arguments trace {Env} _.
Arguments mkWorld {Env} _ _ _.
Arguments set_combatants {Env} _ _.
Arguments set_env {Env} _ _.
Arguments log {Env} _.
Arguments call_get_random {Env} _.
Arguments call_update_meal_stats {Env} _ _ _.
Arguments get_battle_score {Env} _.
Arguments get_combatants {Env}.
Arguments clear_combatants {Env}.
Arguments prep_combatant {Env} _.
Arguments item {Env} _ _.
Arguments remove_combatant {Env} _.
Arguments battle {Env} _ _.

(** ** The meal store *)

(** [meal_max/models/kitchen_model.py] is not among the sources (only its
    tests are); the store below follows section 4.1 of the specification,
    with the messages the tests match against. *)
Module Kitchen.

(** A Python number, as [create_meal] receives it ([-1], [10], [10.0]). *)
Inductive number :=
| Int (z : Z)
| Float (f : float).

Definition number_pos (p : number) : bool :=
  match p with
  | Int z => 0 <? z
  | Float f => PrimFloat.ltb 0%float f
  end.

(** [price <= 0] *)
Definition number_le0 (p : number) : bool :=
  match p with
  | Int z => z <=? 0
  | Float f => PrimFloat.leb f 0%float
  end.

Definition number_to_float (p : number) : float :=
  match p with
  | Int z => float_of_int z
  | Float f => f
  end.

Definition str_int (z : Z) : string := NilZero.string_of_int (Z.to_int z).

(** Modelled from the spec: a row of the store (section 3), which is
    missing from the sources: the meal's fields, its two counters and the
    soft-delete flag. *)
Record Row := mkRow {
  row_id : Z;
  row_meal : string;
  row_cuisine : string;
  row_price : number;
  row_difficulty : string;
  battles : nat;
  wins : nat;
  deleted : bool
}.

(** Modelled from the spec: the store keeps its rows in insertion order
    and never removes one, so the next id is one more than the number of
    rows. *)
Definition Store := list Row.

Definition K := ES.t Store.

Definition difficulties : list string := ["LOW"; "MED"; "HIGH"].

Definition valid_difficulty (d : string) : bool :=
  existsb (String.eqb d) difficulties.

(** The first row with this id, deleted or not. *)
Definition find_id (meal_id : Z) (st : Store) : option Row :=
  find (fun r => row_id r =? meal_id) st.

(** The first row with this name that is not deleted. *)
Definition find_name (name : string) (st : Store) : option Row :=
  find (fun r => String.eqb (row_meal r) name && negb (deleted r)) st.

Definition next_id (st : Store) : Z := Z.of_nat (List.length st) + 1.

Definition to_meal (r : Row) : Meal :=
  mkMeal (row_id r) (row_meal r) (row_cuisine r)
    (number_to_float (row_price r)) (row_difficulty r).

Definition not_found (meal_id : Z) : exn :=
  ValueError NotFound ("Meal with ID " ++ str_int meal_id ++ " not found").

Definition set_deleted (meal_id : Z) (r : Row) : Row :=
  if row_id r =? meal_id
  then mkRow (row_id r) (row_meal r) (row_cuisine r) (row_price r)
         (row_difficulty r) (battles r) (wins r) true
  else r.

(** [battles = battles + 1, wins = wins + 1 WHERE id = ?] *)
Definition record_win (meal_id : Z) (r : Row) : Row :=
  if row_id r =? meal_id
  then mkRow (row_id r) (row_meal r) (row_cuisine r) (row_price r)
         (row_difficulty r) (S (battles r)) (S (wins r)) (deleted r)
  else r.

(** [battles = battles + 1 WHERE id = ?] *)
Definition record_loss (meal_id : Z) (r : Row) : Row :=
  if row_id r =? meal_id
  then mkRow (row_id r) (row_meal r) (row_cuisine r) (row_price r)
         (row_difficulty r) (S (battles r)) (wins r) (deleted r)
  else r.

(** The row with this id when it exists and is not deleted. *)
Definition live_row (meal_id : Z) : K Row :=
  (st <- ES.get ;;
   match find_id meal_id st with
   | None => ES.raise (not_found meal_id)
   | Some r => if deleted r then ES.raise (not_found meal_id) else ES.ret r
   end)%es.

(** Modelled from the spec: [delete(id)] fails with NotFound if no
    non-deleted meal has that id, otherwise sets the flag. *)
Definition delete_meal (meal_id : Z) : K unit :=
  (live_row meal_id ;; ES.modify (map (set_deleted meal_id)))%es.

(** Modelled from the spec: [getById] and [getByName] fail with NotFound
    if the meal is absent or soft-deleted. *)
Definition get_meal_by_id (meal_id : Z) : K Meal :=
  (r <- live_row meal_id ;; ES.ret (to_meal r))%es.

Definition get_meal_by_name (name : string) : K Meal :=
  (st <- ES.get ;;
   match find_name name st with
   | None => ES.raise (ValueError NotFound
                         ("Meal with name " ++ name ++ " not found"))
   | Some r => ES.ret (to_meal r)
   end)%es.

(** Modelled from the spec: [updateStats(id, outcome)] fails with
    InvalidInput, before touching the store, for an outcome other than
    "win" and "loss"; fails with NotFound if the meal is absent or deleted;
    on "win" increments both counters, on "loss" [battles] only. *)
Definition update_meal_stats (meal_id : Z) (result : string) : K unit :=
  (if String.eqb result "win" || String.eqb result "loss"
   then
     live_row meal_id ;;
     if String.eqb result "win"
     then ES.modify (map (record_win meal_id))
     else ES.modify (map (record_loss meal_id))
   else ES.raise (ValueError InvalidInput
                    ("Invalid result: " ++ result
                     ++ ". Expected 'win' or 'loss'.")))%es.

(** Modelled from the spec: [clearAll] resets the store to empty. *)
Definition clear_meals : K unit := ES.modify (fun _ => []).

(** *** The leaderboard *)

Record Entry := mkEntry {
  entry_row : Row;
  win_ratio : Q
}.

(** Modelled from the spec: [win_ratio = wins_count / battles_count],
    0 if [battles_count == 0]; an exact rational. *)
Definition ratio_of (r : Row) : Q :=
  if (battles r =? 0)%nat then 0%Q
  else (inject_Z (Z.of_nat (wins r)) / inject_Z (Z.of_nat (battles r)))%Q.

Definition with_ratio (r : Row) : Entry := mkEntry r (ratio_of r).

Inductive sort_key :=
| ByWins
| ByWinRatio.

Definition sort_value (k : sort_key) (e : Entry) : Q :=
  match k with
  | ByWins => inject_Z (Z.of_nat (wins (entry_row e)))
  | ByWinRatio => win_ratio e
  end.

(** Descending insertion that keeps [e] ahead of the entries it ties
    with: a stable sort when folded from the right. *)
Fixpoint insert_desc (k : sort_key) (e : Entry) (l : list Entry)
  : list Entry :=
  match l with
  | [] => [e]
  | y :: l' =>
      if Qle_bool (sort_value k y) (sort_value k e)
      then e :: l
      else y :: insert_desc k e l'
  end.

Definition sort_desc (k : sort_key) (l : list Entry) : list Entry :=
  fold_right (insert_desc k) [] l.

Definition live (st : Store) : list Row :=
  filter (fun r => negb (deleted r)) st.

(** Modelled from the spec: [getLeaderboard(sortBy)] returns the
    non-deleted meals with their ratio, sorted descending by [wins] (the
    default) or by the ratio, ties in insertion order. *)
Definition get_leaderboard (sort_by : option sort_key) : K (list Entry) :=
  (st <- ES.get ;;
   let k := match sort_by with Some k => k | None => ByWins end in
   ES.ret (sort_desc k (map with_ratio (live st))))%es.

Section Create.

(** [str(x)] of a float, the shortest decimal that reads back as [x];
    the program only pastes it into a message. *)
Variable float_repr : float -> string.

Definition str_number (p : number) : string :=
  match p with
  | Int z => str_int z
  | Float f => float_repr f
  end.

(** Modelled from the spec: [create] validates [price > 0], then the
    difficulty, then the name among the non-deleted meals, and persists a
    row with both counters at zero. *)
Definition create_meal (name cuisine_ : string) (price_ : number)
  (difficulty_ : string) : K Z :=
  (if negb (number_pos price_)
   then ES.raise (ValueError InvalidInput
                    ("Invalid price: " ++ str_number price_
                     ++ ". Price must be a positive number."))
   else if negb (valid_difficulty difficulty_)
   then ES.raise (ValueError InvalidInput
                    ("Invalid difficulty level: " ++ difficulty_
                     ++ ". Must be 'LOW', 'MED', or 'HIGH'."))
   else
     st <- ES.get ;;
     match find_name name st with
     | Some _ => ES.raise (ValueError Conflict
                             ("Meal with name '" ++ name
                              ++ "' already exists"))
     | None =>
         let new_id := next_id st in
         ES.modify (fun st => st ++ [mkRow new_id name cuisine_ price_
                                       difficulty_ 0 0 false])%list ;;
         ES.ret new_id
     end)%es.

(** *** Reachable stores *)

Inductive op :=
| Create (name cuisine_ : string) (price_ : number) (difficulty_ : string)
| Delete (meal_id : Z)
| GetById (meal_id : Z)
| GetByName (name : string)
| Leaderboard (sort_by : option sort_key)
| UpdateStats (meal_id : Z) (result : string)
| ClearAll.

(** The store an operation leaves, whether it returns or raises. *)
Definition run (o : op) (st : Store) : Store :=
  match o with
  | Create n c p d => snd (create_meal n c p d st)
  | Delete i => snd (delete_meal i st)
  | GetById i => snd (get_meal_by_id i st)
  | GetByName n => snd (get_meal_by_name n st)
  | Leaderboard k => snd (get_leaderboard k st)
  | UpdateStats i r => snd (update_meal_stats i r st)
  | ClearAll => snd (clear_meals st)
  end.

Inductive reachable : Store -> Prop :=
| reach_empty : reachable []
| reach_step st o : reachable st -> reachable (run o st).

End Create.

Definition stats_ok (r : Row) : Prop := (wins r <= battles r)%nat.

End Kitchen.

(** ** Vocabulary of the statements *)

(** The difficulty levels of the specification, as the strings the
    program stores, and [difficultyWeight] in the specification's words:
    HIGH to 1, MED to 2, LOW to 3. *)
Inductive Difficulty :=
| LOW
| MED
| HIGH.

Definition difficulty_name (d : Difficulty) : string :=
  match d with
  | LOW => "LOW"
  | MED => "MED"
  | HIGH => "HIGH"
  end.

Definition difficultyWeight (d : Difficulty) : float :=
  match d with
  | HIGH => 1%float
  | MED => 2%float
  | LOW => 3%float
  end.

(** The score of a combatant whose difficulty has weight [m]. *)
Definition score_with (c : Meal) (m : Z) : float :=
  PrimFloat.sub
    (PrimFloat.mul (price c)
       (float_of_int (Z.of_nat (String.length (cuisine c)))))
    (float_of_int m).

(** The normalised gap between two scores. *)
Definition delta_of (score_1 score_2 : float) : float :=
  PrimFloat.div (PrimFloat.abs (PrimFloat.sub score_1 score_2)) 100%float.

(** [sub] occurs in [s]. *)
Definition contains (sub s : string) : Prop :=
  exists pre post, s = pre ++ sub ++ post.



(** ** The meals of the tests *)

Definition pizza : Meal := mkMeal 1 "Pizza" "Italian" 10%float "MED".

Definition sushi : Meal := mkMeal 2 "Sushi" "Japanese" 12%float "HIGH".

(** The sample 0.1 of [test_battle], as the nearest binary64 value. *)
Definition tenth : float := 0x1.999999999999ap-4%float.

(** A store that holds the two meals, before and after Pizza beat Sushi
    and with the statistics of [test_get_leaderboard]. *)
Definition kitchen0 : Kitchen.Store :=
  [Kitchen.mkRow 1 "Pizza" "Italian" (Kitchen.Float 10%float) "MED" 0 0 false;
   Kitchen.mkRow 2 "Sushi" "Japanese" (Kitchen.Float 12%float) "HIGH" 0 0 false].

Definition kitchen1 : Kitchen.Store :=
  [Kitchen.mkRow 1 "Pizza" "Italian" (Kitchen.Float 10%float) "MED" 1 1 false;
   Kitchen.mkRow 2 "Sushi" "Japanese" (Kitchen.Float 12%float) "HIGH" 1 0 false].

Definition kitchen2 : Kitchen.Store :=
  [Kitchen.mkRow 1 "Pizza" "Italian" (Kitchen.Float 10%float) "MED" 5 3 false;
   Kitchen.mkRow 2 "Sushi" "Japanese" (Kitchen.Float 12%float) "HIGH" 4 4 false].

Definition arena0 : World Kitchen.Store := mkWorld [pizza; sushi] kitchen0 [].

Definition arena1 : World Kitchen.Store :=
  mkWorld [pizza] kitchen1
    [GetRandom; UpdateMealStats 1 "win"; UpdateMealStats 2 "loss"].

(** A rendering of floats for the examples, none of which prints one. *)
Definition plain_repr (f : float) : string := "float".

(** ** The life of an arena *)

Section Arena.

Variable Env : Type.
Variable get_random : ES.t Env float.
Variable update_meal_stats : Z -> string -> ES.t Env unit.

(** [BattleModel.__init__]: [self.combatants = []]; no call has been
    made yet. *)
Definition init (e : Env) : World Env := mkWorld [] e [].

(** The methods of [BattleModel], with their arguments. *)
Inductive method :=
| Prep (combatant_data : Meal)
| Battle
| Clear
| GetCombatants
| GetBattleScore (combatant : Meal).

(** The world a method call leaves, whether it returns or raises. *)
Definition call_method (m : method) (w : World Env) : World Env :=
  match m with
  | Prep c => snd (prep_combatant c w)
  | Battle => snd (battle get_random update_meal_stats w)
  | Clear => snd (clear_combatants w)
  | GetCombatants => snd (get_combatants w)
  | GetBattleScore c => snd (get_battle_score c w)
  end.

(** The worlds reached from a new arena by calling its methods. *)
Inductive arena_reachable : World Env -> Prop :=
| arena_new e : arena_reachable (init e)
| arena_call m w : arena_reachable w -> arena_reachable (call_method m w).

(** The state of the collaborators after the calls of [t] are made on
    them, one after the other, from the state [e]. *)
Fixpoint run_calls (t : list call) (e : Env) : Env :=
  match t with
  | [] => e
  | GetRandom :: t' => run_calls t' (snd (get_random e))
  | UpdateMealStats meal_id result :: t' =>
      run_calls t' (snd (update_meal_stats meal_id result e))
  end.

End Arena.

Arguments init {Env} _.
Arguments call_method {Env} _ _ _ _.
Arguments arena_reachable {Env} _ _ _.
Arguments run_calls {Env} _ _ _ _.

(** The calls a battle may add to the trace, in full: the supplier, the
    winner's update, the loser's update. *)
Definition battle_calls (winner loser : Meal) : list call :=
  [GetRandom; UpdateMealStats (id winner) "win";
   UpdateMealStats (id loser) "loss"].

(** [winner] is picked over [loser]: whenever the sample is drawn, the
    first update the battle issues, right after the call to the supplier,
    is [winner]'s with "win", and the battle returns [winner]'s name if
    the store accepts both updates. *)
Definition picks {Env} (get_random : ES.t Env float)
  (update_meal_stats : Z -> string -> ES.t Env unit) (w : World Env)
  (winner loser : Meal) : Prop :=
  forall r e1,
    get_random (env w) = (inr r, e1) ->
    (exists rest,
        trace (snd (battle get_random update_meal_stats w))
        = (trace w
             ++ GetRandom :: UpdateMealStats (id winner) "win" :: rest)%list)
    /\ (forall e2 e3,
           update_meal_stats (id winner) "win" e1 = (inr tt, e2) ->
           update_meal_stats (id loser) "loss" e2 = (inr tt, e3) ->
           fst (battle get_random update_meal_stats w) = inr (meal winner)).

(** The difficulties that have a weight. *)
Definition listed (d : string) : Prop := In d ["LOW"; "MED"; "HIGH"].

(** The calls of each sort in a trace. *)
Definition is_sample (c : call) : bool :=
  match c with
  | GetRandom => true
  | UpdateMealStats _ _ => false
  end.

Definition is_update (result : string) (c : call) : bool :=
  match c with
  | GetRandom => false
  | UpdateMealStats _ r => String.eqb r result
  end.

Definition count_calls (p : call -> bool) (t : list call) : nat :=
  List.length (filter p t).

(** More meals for the scenarios: one with Pizza's score, one far above
    it, one with a difficulty in lower case and one whose price is NaN. *)
Definition pasta : Meal := mkMeal 3 "Pasta" "Italian" 10%float "MED".

Definition wagyu : Meal := mkMeal 4 "Wagyu" "Japanese" 100%float "HIGH".

Definition ramen : Meal := mkMeal 5 "Ramen" "Japanese" 12%float "high".

Definition mystery : Meal := mkMeal 6 "Mystery" "Unknown" nan "LOW".

(** The sample 0.9, as the nearest binary64 value. *)
Definition nine_tenths : float := 0x1.ccccccccccccdp-1%float.

(** A store that only holds Pizza. *)
Definition kitchen_pizza : Kitchen.Store :=
  [Kitchen.mkRow 1 "Pizza" "Italian" (Kitchen.Float 10%float) "MED" 0 0 false].

(** The patched [update_meal_stats] of [test_battle], which accepts every
    update and keeps no state. *)
Definition mock_update_meal_stats (meal_id : Z) (result : string)
  : ES.t unit unit :=
  ES.ret tt.

(** A supplier that is down. *)
Definition random_down : ES.t Kitchen.Store float :=
  ES.raise (ServiceUnavailable "random.org is unavailable").

(** * Properties *)

(** ** Floats *)

Lemma Meal_beq_true (a b : Meal) : Meal_beq a b = true -> a = b.
Proof.
  destruct a as [i1 n1 c1 p1 d1], b as [i2 n2 c2 p2 d2].
  unfold Meal_beq; cbn [id meal cuisine price difficulty]; intros H.
  repeat (apply andb_prop in H; destruct H as [H ?]).
  apply Z.eqb_eq in H.
  repeat match goal with
         | E : String.eqb _ _ = true |- _ => apply String.eqb_eq in E
         | E : PrimFloat.Leibniz.eqb _ _ = true |- _ =>
             apply FloatAxioms.Leibniz.eqb_spec in E
         end.
  congruence.
Qed.

Lemma Meal_beq_refl (a : Meal) : Meal_beq a a = true.
Proof.
  unfold Meal_beq.
  rewrite Z.eqb_refl, !String.eqb_refl.
  replace (PrimFloat.Leibniz.eqb (price a) (price a)) with true; [reflexivity|].
  symmetry; apply FloatAxioms.Leibniz.eqb_spec; reflexivity.
Qed.

Lemma py_same_refl (a : Meal) : py_same a a = true.
Proof. unfold py_same; rewrite Meal_beq_refl; reflexivity. Qed.

(** IEEE equality is equality of the values, save for the two zeros. *)
Lemma float_eqb_cases (p q : float) :
  PrimFloat.eqb p q = true ->
  p = q \/ exists s s', Prim2SF p = S754_zero s /\ Prim2SF q = S754_zero s'.
Proof.
  rewrite FloatAxioms.eqb_spec; unfold SFeqb, SFcompare; intros H.
  destruct (Prim2SF p) as [s| s| |s m e] eqn:Ep;
    destruct (Prim2SF q) as [s'| s'| |s' m' e'] eqn:Eq';
    try discriminate H; try (right; eauto; fail);
    left; apply Prim2SF_inj; rewrite Ep, Eq';
    destruct s, s'; try discriminate H; try reflexivity;
    destruct (Z.compare e e') eqn:Ee; try discriminate H;
    apply Z.compare_eq in Ee; subst e';
    destruct (Pos.compare_cont Datatypes.Eq m m') eqn:Em;
    try discriminate H;
    apply Pos.compare_eq in Em; subst m'; reflexivity.
Qed.

(** Nothing is below NaN. *)
Lemma ltb_nan (r : float) : PrimFloat.ltb r nan = false.
Proof.
  rewrite FloatAxioms.ltb_spec; unfold SFltb, SFcompare.
  destruct (Prim2SF r); reflexivity.
Qed.

(** A sample that is not negative is not below zero. *)
Lemma ltb_zero (r : float) :
  PrimFloat.leb 0%float r = true -> PrimFloat.ltb r 0%float = false.
Proof.
  rewrite FloatAxioms.leb_spec, FloatAxioms.ltb_spec.
  unfold SFleb, SFltb, SFcompare.
  change (Prim2SF 0%float) with (S754_zero false).
  destruct (Prim2SF r) as [s| s| |s m e]; try reflexivity;
    destruct s; try reflexivity; discriminate.
Qed.

(** [price <= 0] excludes [0 < price]. *)
Lemma leb_zero_not_pos (f : float) :
  PrimFloat.leb f 0%float = true -> PrimFloat.ltb 0%float f = false.
Proof.
  rewrite FloatAxioms.leb_spec, FloatAxioms.ltb_spec.
  unfold SFleb, SFltb, SFcompare.
  change (Prim2SF 0%float) with (S754_zero false).
  destruct (Prim2SF f) as [s| s| |s m e]; try reflexivity;
    destruct s; try reflexivity; discriminate.
Qed.

(** A price that is a zero of either sign gives the same score: the
    product is a zero or NaN, and the weight subtracted is not zero. *)
Lemma zero_price_scores (p q n fm : float) s s' sy my ey :
  Prim2SF p = S754_zero s ->
  Prim2SF q = S754_zero s' ->
  Prim2SF fm = S754_finite sy my ey ->
  (PrimFloat.sub (PrimFloat.mul p n) fm = nan
   /\ PrimFloat.sub (PrimFloat.mul q n) fm = nan)
  \/ (PrimFloat.sub (PrimFloat.mul p n) fm = PrimFloat.opp fm
      /\ PrimFloat.sub (PrimFloat.mul q n) fm = PrimFloat.opp fm).
Proof.
  intros Hp Hq Hfm.
  assert (Hs : forall x, Prim2SF (PrimFloat.sub (PrimFloat.mul x n) fm)
                         = SFsub prec emax
                             (SFmul prec emax (Prim2SF x) (Prim2SF n))
                             (Prim2SF fm)).
  { intros x; rewrite FloatAxioms.sub_spec, FloatAxioms.mul_spec; reflexivity. }
  destruct (Prim2SF n) as [sn| sn| |sn mn en] eqn:En;
    [right | left | left | right]; split; apply Prim2SF_inj;
    rewrite Hs, ?FloatAxioms.opp_spec, ?Hp, ?Hq, Hfm; reflexivity.
Qed.

Lemma modifier_cases (d : string) (m : Z) :
  subscript difficulty_modifier d = inr m -> m = 1 \/ m = 2 \/ m = 3.
Proof.
  unfold subscript, difficulty_modifier, dict_get.
  destruct (String.eqb "HIGH" d); [intros [= <-]; auto|].
  destruct (String.eqb "MED" d); [intros [= <-]; auto|].
  destruct (String.eqb "LOW" d); [intros [= <-]; auto|].
  discriminate.
Qed.

(** Two combatants that compare equal without being the same value have
    prices [0.0] and [-0.0]; their scores coincide, the delta is zero or
    NaN, and no sample of [[0,1)] is below it. *)
Lemma zero_prices_draw (p q n : float) (m : Z) (r : float) s s' :
  m = 1 \/ m = 2 \/ m = 3 ->
  Prim2SF p = S754_zero s ->
  Prim2SF q = S754_zero s' ->
  PrimFloat.leb 0%float r = true ->
  PrimFloat.ltb r
    (PrimFloat.div
       (PrimFloat.abs
          (PrimFloat.sub
             (PrimFloat.sub (PrimFloat.mul p n) (float_of_int m))
             (PrimFloat.sub (PrimFloat.mul q n) (float_of_int m))))
       (float_of_int 100)) = false.
Proof.
  intros Hm Hp Hq Hr.
  assert (Hfm : exists sy my ey,
             Prim2SF (float_of_int m) = S754_finite sy my ey).
  { destruct Hm as [-> | [-> | ->]]; vm_compute; eauto. }
  destruct Hfm as (sy & my & ey & Hfm).
  destruct (zero_price_scores p q n _ _ _ _ _ _ Hp Hq Hfm) as [[-> ->] | [-> ->]].
  - apply ltb_nan.
  - destruct Hm as [-> | [-> | ->]]; apply (ltb_zero r Hr).
Qed.

(** ** The battle model *)

Lemma Meal_eq_fields (a b : Meal) :
  Meal_eq a b = true ->
  id a = id b /\ meal a = meal b /\ cuisine a = cuisine b
  /\ PrimFloat.eqb (price a) (price b) = true /\ difficulty a = difficulty b.
Proof.
  unfold Meal_eq; intros H.
  repeat (apply andb_prop in H; destruct H as [H ?]).
  apply Z.eqb_eq in H.
  repeat match goal with
         | E : String.eqb _ _ = true |- _ => apply String.eqb_eq in E
         end.
  auto.
Qed.

(** When the first combatant wins, the second does not compare equal to
    it, unless both are the same value. *)
Lemma winner_not_removed (c1 c2 : Meal) (m1 m2 : Z) (r : float) :
  subscript difficulty_modifier (difficulty c1) = inr m1 ->
  subscript difficulty_modifier (difficulty c2) = inr m2 ->
  PrimFloat.leb 0%float r = true ->
  PrimFloat.ltb r (delta_of (score_with c1 m1) (score_with c2 m2)) = true ->
  py_same c1 c2 = true ->
  c1 = c2.
Proof.
  intros H1 H2 Hr Hlt Hsame.
  unfold py_same in Hsame; apply orb_prop in Hsame.
  destruct Hsame as [Hb | He]; [apply Meal_beq_true; assumption|].
  apply Meal_eq_fields in He; destruct He as (Hi & Hn & Hc & Hp & Hd).
  apply float_eqb_cases in Hp; destruct Hp as [Hp | (s & s' & Hp & Hq)].
  - destruct c1, c2; cbn in *; congruence.
  - exfalso.
    rewrite <- Hd, H1 in H2; injection H2 as <-.
    unfold delta_of, score_with in Hlt; rewrite <- Hc in Hlt.
    change 100%float with (float_of_int 100) in Hlt.
    rewrite (zero_prices_draw _ _ _ m1 r s s') in Hlt;
      eauto using modifier_cases; discriminate.
Qed.

(** [self.combatants.remove(loser)] leaves the winner. *)
Lemma remove_loser (c1 c2 : Meal) (m1 m2 : Z) (r : float) :
  subscript difficulty_modifier (difficulty c1) = inr m1 ->
  subscript difficulty_modifier (difficulty c2) = inr m2 ->
  PrimFloat.leb 0%float r = true ->
  let first :=
    PrimFloat.ltb r (delta_of (score_with c1 m1) (score_with c2 m2)) in
  list_remove (if first then c2 else c1) [c1; c2]
  = Some [if first then c1 else c2].
Proof.
  intros H1 H2 Hr first; subst first.
  destruct (PrimFloat.ltb r _) eqn:Hlt; cbn [list_remove].
  - destruct (py_same c1 c2) eqn:Hs.
    + rewrite (winner_not_removed c1 c2 m1 m2 r); auto.
    + rewrite py_same_refl; reflexivity.
  - rewrite py_same_refl; reflexivity.
Qed.

Section BattleFacts.

Variable Env : Type.
Variable get_random : ES.t Env float.
Variable update_meal_stats : Z -> string -> ES.t Env unit.

Implicit Types (w : World Env) (c : Meal).

Lemma get_battle_score_run c w :
  get_battle_score c w
  = (match subscript difficulty_modifier (difficulty c) with
     | inl e => inl e
     | inr m => inr (score_with c m)
     end, w).
Proof.
  unfold get_battle_score, ES.bind, ES.lift, ES.ret.
  destruct (subscript difficulty_modifier (difficulty c)); reflexivity.
Qed.

(** A battle between two combatants with scores, once the sample is
    drawn: the two updates in order, then the removal. *)
Lemma battle_run w (c1 c2 : Meal) (m1 m2 : Z) (r : float) (e1 : Env) :
  combatants w = [c1; c2] ->
  subscript difficulty_modifier (difficulty c1) = inr m1 ->
  subscript difficulty_modifier (difficulty c2) = inr m2 ->
  get_random (env w) = (inr r, e1) ->
  let first :=
    PrimFloat.ltb r (delta_of (score_with c1 m1) (score_with c2 m2)) in
  let winner := if first then c1 else c2 in
  let loser := if first then c2 else c1 in
  let t1 := (trace w ++ [GetRandom; UpdateMealStats (id winner) "win"])%list in
  let t2 := (trace w ++ [GetRandom; UpdateMealStats (id winner) "win";
                         UpdateMealStats (id loser) "loss"])%list in
  battle get_random update_meal_stats w
  = match update_meal_stats (id winner) "win" e1 with
    | (inl e, e2) => (inl e, mkWorld [c1; c2] e2 t1)
    | (inr _, e2) =>
        match update_meal_stats (id loser) "loss" e2 with
        | (inl e, e3) => (inl e, mkWorld [c1; c2] e3 t2)
        | (inr _, e3) =>
            match list_remove loser [c1; c2] with
            | Some l => (inr (meal winner), mkWorld l e3 t2)
            | None => (inl NotInList, mkWorld [c1; c2] e3 t2)
            end
        end
    end.
Proof.
  intros Hc H1 H2 Hr first winner loser t1 t2.
  unfold battle, ES.bind at 1, ES.get.
  rewrite Hc; cbn [List.length Nat.ltb Nat.leb item nth_error].
  unfold ES.bind at 1, ES.ret at 1.
  unfold ES.bind at 1, ES.ret at 1.
  unfold ES.bind at 1; rewrite get_battle_score_run, H1.
  unfold ES.bind at 1; rewrite get_battle_score_run, H2.
  unfold ES.bind at 1, call_get_random, ES.bind at 1, log, ES.modify,
    ES.zoom; cbn [env]; rewrite Hr.
  change (PrimFloat.ltb r _) with first.
  unfold call_update_meal_stats, remove_combatant, log, ES.bind, ES.modify,
    ES.zoom, ES.get, ES.ret, ES.raise, set_env, set_combatants.
  subst winner loser t1 t2; destruct first;
    cbn [env trace combatants]; rewrite <- ?app_assoc, ?Hc; cbn [app];
    (destruct (update_meal_stats _ "win" e1) as [[e|[]] e2];
     cbn [env trace combatants]; [reflexivity|]);
    (destruct (update_meal_stats _ "loss" e2) as [[e|[]] e3];
     cbn [env trace combatants]; rewrite <- ?app_assoc; cbn [app];
     [reflexivity|]);
    match goal with
    | |- context [list_remove ?x ?l] => destruct (list_remove x l)
    end; reflexivity.
Qed.

(** A combatant without a score stops the battle before anything is
    called; so does a failing supplier, before any update. *)
Lemma battle_no_score w (c1 c2 : Meal) (e : exn) :
  combatants w = [c1; c2] ->
  subscript difficulty_modifier (difficulty c1) = inl e
  \/ (exists m1, subscript difficulty_modifier (difficulty c1) = inr m1)
     /\ subscript difficulty_modifier (difficulty c2) = inl e ->
  battle get_random update_meal_stats w = (inl e, w).
Proof.
  intros Hc H.
  unfold battle, ES.bind at 1, ES.get.
  rewrite Hc; cbn [List.length Nat.ltb Nat.leb item nth_error].
  unfold ES.bind at 1, ES.ret at 1.
  unfold ES.bind at 1, ES.ret at 1.
  unfold ES.bind at 1; rewrite get_battle_score_run.
  destruct H as [H1 | [[m1 H1] H2]]; rewrite H1; [reflexivity|].
  unfold ES.bind at 1; rewrite get_battle_score_run, H2; reflexivity.
Qed.

Lemma battle_no_sample w (c1 c2 : Meal) (m1 m2 : Z) (e : exn) (e1 : Env) :
  combatants w = [c1; c2] ->
  subscript difficulty_modifier (difficulty c1) = inr m1 ->
  subscript difficulty_modifier (difficulty c2) = inr m2 ->
  get_random (env w) = (inl e, e1) ->
  battle get_random update_meal_stats w
  = (inl e, mkWorld [c1; c2] e1 (trace w ++ [GetRandom])).
Proof.
  intros Hc H1 H2 Hr.
  unfold battle, ES.bind at 1, ES.get.
  rewrite Hc; cbn [List.length Nat.ltb Nat.leb item nth_error].
  unfold ES.bind at 1, ES.ret at 1.
  unfold ES.bind at 1, ES.ret at 1.
  unfold ES.bind at 1; rewrite get_battle_score_run, H1.
  unfold ES.bind at 1; rewrite get_battle_score_run, H2.
  unfold ES.bind at 1, call_get_random, ES.bind at 1, log, ES.modify,
    ES.zoom; cbn [env]; rewrite Hr.
  unfold set_env; cbn [env trace combatants]; rewrite Hc; reflexivity.
Qed.

(** The loser is one of the two combatants, so the removal finds it. *)
Lemma remove_member (c1 c2 : Meal) (first : bool) :
  exists x, list_remove (if first then c2 else c1) [c1; c2] = Some [x].
Proof.
  destruct first; cbn [list_remove].
  - destruct (py_same c1 c2); [eauto|].
    rewrite py_same_refl; cbn; eauto.
  - rewrite py_same_refl; eauto.
Qed.

(** C4. With fewer than two combatants in the roster, [battle] raises
    the InvalidState error and leaves the world as it was: the roster
    is unchanged, no statistics are updated and the random supplier is
    not called (the state of the collaborators and the trace of calls
    are those of before). *)
Theorem battle_needs_two_combatants w :
  (List.length (combatants w) < 2)%nat ->
  battle get_random update_meal_stats w
  = (inl (ValueError InvalidState
            "Two combatants must be prepped for a battle."), w).
Proof.
  intros H.
  unfold battle, ES.bind, ES.get.
  apply Nat.ltb_lt in H; rewrite H; reflexivity.
Qed.

(** C7. On a roster of two combatants [prep_combatant] raises the Full
    error and leaves the world unchanged; on a roster of none or one it
    returns and the roster is the old one with the meal appended. *)
Theorem prep_combatant_capacity w c :
  (List.length (combatants w) = 2%nat ->
   prep_combatant c w
   = (inl (ValueError Full
             "Combatant list is full, cannot add more combatants."), w))
  /\ ((List.length (combatants w) < 2)%nat ->
      prep_combatant c w
      = (inr tt, set_combatants (combatants w ++ [c]) w)).
Proof.
  unfold prep_combatant, ES.bind, ES.get, ES.raise, ES.modify; split; intros H.
  - rewrite H; reflexivity.
  - destruct (Nat.leb_spec 2 (List.length (combatants w))); [lia|reflexivity].
Qed.

(** C3. For a meal whose difficulty is LOW, MED or HIGH, the score is
    [price * len(cuisine) - difficultyWeight(difficulty)], with weight 1
    for HIGH, 2 for MED and 3 for LOW.  The value is a function of the
    meal's fields alone: it is the same in every world, and computing it
    leaves the world (roster, collaborators, calls made) as it was. *)
Theorem get_battle_score_formula w c (d : Difficulty) :
  difficulty c = difficulty_name d ->
  get_battle_score c w
  = (inr (PrimFloat.sub
            (PrimFloat.mul (price c)
               (float_of_int (Z.of_nat (String.length (cuisine c)))))
            (difficultyWeight d)), w).
Proof.
  intros Hd; rewrite get_battle_score_run, Hd.
  destruct d; reflexivity.
Qed.

(** C10. [get_battle_score] returns a score exactly on the three listed
    difficulties: there the lookup of the weight succeeds, and on every
    other difficulty string the method raises the [KeyError] of the
    failed lookup instead of returning. *)
Theorem get_battle_score_total_on_listed w c :
  (In (difficulty c) ["LOW"; "MED"; "HIGH"] ->
   exists score, get_battle_score c w = (inr score, w))
  /\ (~ In (difficulty c) ["LOW"; "MED"; "HIGH"] ->
      get_battle_score c w = (inl (KeyError (difficulty c)), w)).
Proof.
  rewrite get_battle_score_run; split.
  - intros [<- | [<- | [<- | []]]]; eexists; reflexivity.
  - intros Hn.
    unfold subscript, difficulty_modifier, dict_get.
    destruct (String.eqb_spec "HIGH" (difficulty c)) as [E|_];
      [exfalso; apply Hn; rewrite <- E; cbn; auto|].
    destruct (String.eqb_spec "MED" (difficulty c)) as [E|_];
      [exfalso; apply Hn; rewrite <- E; cbn; auto|].
    destruct (String.eqb_spec "LOW" (difficulty c)) as [E|_];
      [exfalso; apply Hn; rewrite <- E; cbn; auto|].
    reflexivity.
Qed.

Lemma score_modifier w c (score : float) :
  get_battle_score c w = (inr score, w) ->
  exists m, subscript difficulty_modifier (difficulty c) = inr m
            /\ score = score_with c m.
Proof.
  rewrite get_battle_score_run.
  destruct (subscript difficulty_modifier (difficulty c)) as [e|m];
    intros [= <-]; eauto.
Qed.

(** C1. With [c1] and [c2] prepped in this order, scores [score_1] and
    [score_2], and a sample [r] from the supplier, the winner of the
    battle is [c1] when [abs(score_1 - score_2) / 100 > r] and [c2]
    otherwise (for every float [r], those of [[0,1)] included): the first
    statistics update issued, right after the call to the supplier, is
    the winner's, with outcome "win", and when the store accepts the two
    updates [battle] returns the winner's name. *)
Theorem battle_winner_rule w (c1 c2 : Meal) (score_1 score_2 r : float)
  (e1 : Env) :
  combatants w = [c1; c2] ->
  get_battle_score c1 w = (inr score_1, w) ->
  get_battle_score c2 w = (inr score_2, w) ->
  get_random (env w) = (inr r, e1) ->
  let first := PrimFloat.ltb r (delta_of score_1 score_2) in
  let winner := if first then c1 else c2 in
  let loser := if first then c2 else c1 in
  (exists rest,
      trace (snd (battle get_random update_meal_stats w))
      = (trace w ++ GetRandom :: UpdateMealStats (id winner) "win" :: rest)%list)
  /\ (forall e2 e3,
         update_meal_stats (id winner) "win" e1 = (inr tt, e2) ->
         update_meal_stats (id loser) "loss" e2 = (inr tt, e3) ->
         fst (battle get_random update_meal_stats w) = inr (meal winner)).
Proof.
  intros Hc H1 H2 Hr.
  apply score_modifier in H1; destruct H1 as (m1 & H1 & ->).
  apply score_modifier in H2; destruct H2 as (m2 & H2 & ->).
  intros first winner loser.
  rewrite (battle_run w c1 c2 m1 m2 r e1 Hc H1 H2 Hr).
  fold first; fold winner; fold loser.
  destruct (remove_member c1 c2 first) as [x Hx]; fold loser in Hx.
  split.
  - destruct (update_meal_stats (id winner) "win" e1) as [[e|u] e2];
      [eexists; reflexivity|].
    destruct (update_meal_stats (id loser) "loss" e2) as [[e|u'] e3];
      [eexists; reflexivity|].
    rewrite Hx; eexists; reflexivity.
  - intros e2 e3 Hw Hl; rewrite Hw, Hl, Hx; reflexivity.
Qed.

(** C2. With two combatants prepped and a supplier that only returns
    samples of [[0,1)], a battle that returns leaves the winner alone in
    the roster, returns the winner's name, and has called, in this order,
    the supplier, the statistics update of the winner with "win" and the
    statistics update of the loser with "loss".  Both updates were made
    and returned: the winner's on the state the supplier left, the
    loser's on the state the winner's update left, and the state of the
    collaborators after the battle is the one the loser's update left. *)
Theorem battle_success w w' (c1 c2 : Meal) (name : string) :
  (forall e r e', get_random e = (inr r, e') ->
                  PrimFloat.leb 0%float r = true
                  /\ PrimFloat.ltb r 1%float = true) ->
  combatants w = [c1; c2] ->
  battle get_random update_meal_stats w = (inr name, w') ->
  exists winner loser r e1 e2,
    ((winner, loser) = (c1, c2) \/ (winner, loser) = (c2, c1))
    /\ name = meal winner
    /\ combatants w' = [winner]
    /\ trace w' = (trace w ++ [GetRandom;
                               UpdateMealStats (id winner) "win";
                               UpdateMealStats (id loser) "loss"])%list
    /\ get_random (env w) = (inr r, e1)
    /\ update_meal_stats (id winner) "win" e1 = (inr tt, e2)
    /\ update_meal_stats (id loser) "loss" e2 = (inr tt, env w').
Proof.
  intros Hrange Hc Hb.
  destruct (subscript difficulty_modifier (difficulty c1)) as [e|m1] eqn:H1.
  { rewrite (battle_no_score w c1 c2 e Hc) in Hb by auto; discriminate. }
  destruct (subscript difficulty_modifier (difficulty c2)) as [e|m2] eqn:H2.
  { rewrite (battle_no_score w c1 c2 e Hc) in Hb by eauto; discriminate. }
  destruct (get_random (env w)) as [[e|r] e1] eqn:Hr.
  { rewrite (battle_no_sample w c1 c2 m1 m2 e e1 Hc H1 H2 Hr) in Hb;
      discriminate. }
  destruct (Hrange _ _ _ Hr) as [Hr0 _].
  rewrite (battle_run w c1 c2 m1 m2 r e1 Hc H1 H2 Hr) in Hb.
  rewrite (remove_loser c1 c2 m1 m2 r H1 H2 Hr0) in Hb.
  destruct (PrimFloat.ltb r (delta_of (score_with c1 m1) (score_with c2 m2)));
    [exists c1, c2 | exists c2, c1]; exists r, e1;
    (destruct (update_meal_stats _ "win" e1) as [[e|[]] e2] eqn:Hw;
     [discriminate|]);
    (destruct (update_meal_stats _ "loss" e2) as [[e|[]] e3] eqn:Hl;
     [discriminate|]);
    exists e2; injection Hb as <- <-; cbn [combatants trace env];
    repeat split; auto.
Qed.

End BattleFacts.

(** ** The meal store *)

Import Kitchen.

Lemma live_row_run (meal_id : Z) (st : Store) :
  live_row meal_id st
  = (match find_id meal_id st with
     | None => inl (not_found meal_id)
     | Some r => if deleted r then inl (not_found meal_id) else inr r
     end, st).
Proof.
  unfold live_row, ES.bind, ES.get, ES.raise, ES.ret.
  destruct (find_id meal_id st) as [r|]; [destruct (deleted r)|]; reflexivity.
Qed.

(** Looking a row up after the rows with id [i] were rewritten by [f],
    which keeps ids. *)
Lemma find_id_map (f : Row -> Row) (i j : Z) (st : Store) :
  (forall r, row_id (f r) = row_id r) ->
  find_id j (map f st) = option_map f (find_id j st).
Proof.
  intros Hf; unfold find_id.
  induction st as [|r st IH]; cbn; [reflexivity|].
  rewrite Hf; destruct (row_id r =? j); [reflexivity|exact IH].
Qed.

Lemma record_win_id (i : Z) (r : Row) : row_id (record_win i r) = row_id r.
Proof. unfold record_win; destruct (row_id r =? i); reflexivity. Qed.

Lemma record_loss_id (i : Z) (r : Row) : row_id (record_loss i r) = row_id r.
Proof. unfold record_loss; destruct (row_id r =? i); reflexivity. Qed.

Lemma find_id_found (i : Z) (st : Store) (r : Row) :
  find_id i st = Some r -> row_id r = i.
Proof.
  unfold find_id; intros H; apply find_some in H.
  destruct H as [_ H]; apply Z.eqb_eq; exact H.
Qed.

Lemma update_meal_stats_run (meal_id : Z) (result : string) (st : Store) :
  update_meal_stats meal_id result st
  = if String.eqb result "win" || String.eqb result "loss"
    then
      match find_id meal_id st with
      | None => (inl (not_found meal_id), st)
      | Some r =>
          if deleted r then (inl (not_found meal_id), st)
          else (inr tt,
                if String.eqb result "win"
                then map (record_win meal_id) st
                else map (record_loss meal_id) st)
      end
    else (inl (ValueError InvalidInput
                 ("Invalid result: " ++ result
                  ++ ". Expected 'win' or 'loss'.")), st).
Proof.
  unfold update_meal_stats.
  destruct (String.eqb result "win" || String.eqb result "loss");
    [|reflexivity].
  unfold ES.bind; rewrite live_row_run.
  destruct (find_id meal_id st) as [r|]; [|reflexivity].
  destruct (deleted r); [reflexivity|].
  destruct (String.eqb result "win"); reflexivity.
Qed.

(** C5. For a meal that is present and not deleted, [update_meal_stats]
    with "win" adds one to both counters and with "loss" adds one to
    [battles] only, the other rows being untouched; with any other outcome
    it raises InvalidInput and the store is unchanged, whatever the id;
    with "win" or "loss" and a meal that is absent or deleted it raises
    NotFound and the store is unchanged. *)
Theorem update_meal_stats_spec (meal_id : Z) (st : Store) :
  (forall r,
      find_id meal_id st = Some r -> deleted r = false ->
      (exists st',
          update_meal_stats meal_id "win" st = (inr tt, st')
          /\ find_id meal_id st'
             = Some (mkRow (row_id r) (row_meal r) (row_cuisine r)
                       (row_price r) (row_difficulty r)
                       (S (battles r)) (S (wins r)) false)
          /\ forall j, j <> meal_id -> find_id j st' = find_id j st)
      /\ (exists st',
             update_meal_stats meal_id "loss" st = (inr tt, st')
             /\ find_id meal_id st'
                = Some (mkRow (row_id r) (row_meal r) (row_cuisine r)
                          (row_price r) (row_difficulty r)
                          (S (battles r)) (wins r) false)
             /\ forall j, j <> meal_id -> find_id j st' = find_id j st))
  /\ (forall result,
         result <> "win" -> result <> "loss" ->
         exists msg,
           update_meal_stats meal_id result st
           = (inl (ValueError InvalidInput msg), st))
  /\ (forall result,
         result = "win" \/ result = "loss" ->
         find_id meal_id st = None
         \/ (exists r, find_id meal_id st = Some r /\ deleted r = true) ->
         exists msg,
           update_meal_stats meal_id result st
           = (inl (ValueError NotFound msg), st)).
Proof.
  split; [|split].
  - intros r Hf Hd.
    assert (Hother : forall (f : Row -> Row) j,
               (forall x, row_id (f x) = row_id x) ->
               (forall x, row_id x <> meal_id -> f x = x) ->
               j <> meal_id ->
               find_id j (map f st) = find_id j st).
    { intros f j Hid Hf' Hj; rewrite (find_id_map f meal_id j st Hid).
      destruct (find_id j st) as [x|] eqn:Hx; [|reflexivity].
      cbn; rewrite Hf'; [reflexivity|].
      rewrite (find_id_found _ _ _ Hx); exact Hj. }
    pose proof (find_id_found _ _ _ Hf) as Hi.
    split;
      [exists (map (record_win meal_id) st)
      |exists (map (record_loss meal_id) st)];
      rewrite update_meal_stats_run, Hf, Hd; (split; [reflexivity|split]).
    + rewrite (find_id_map _ meal_id) by apply record_win_id.
      rewrite Hf; cbn; unfold record_win.
      rewrite Hi, Z.eqb_refl, Hd; reflexivity.
    + intros j Hj; apply Hother;
        [apply record_win_id| |exact Hj].
      intros x Hx; unfold record_win.
      destruct (Z.eqb_spec (row_id x) meal_id); [contradiction|reflexivity].
    + rewrite (find_id_map _ meal_id) by apply record_loss_id.
      rewrite Hf; cbn; unfold record_loss.
      rewrite Hi, Z.eqb_refl, Hd; reflexivity.
    + intros j Hj; apply Hother;
        [apply record_loss_id| |exact Hj].
      intros x Hx; unfold record_loss.
      destruct (Z.eqb_spec (row_id x) meal_id); [contradiction|reflexivity].
  - intros result Hw Hl; eexists; rewrite update_meal_stats_run.
    destruct (String.eqb_spec result "win"); [contradiction|].
    destruct (String.eqb_spec result "loss"); [contradiction|].
    reflexivity.
  - intros result Hr Hm; exists ("Meal with ID " ++ str_int meal_id ++ " not found").
    rewrite update_meal_stats_run.
    replace (String.eqb result "win" || String.eqb result "loss") with true
      by (destruct Hr as [-> | ->]; reflexivity).
    destruct Hm as [-> | (r & -> & ->)]; reflexivity.
Qed.

Section StoreFacts.

Variable float_repr : float -> string.

Lemma create_meal_run (name cuisine_ : string) (price_ : number)
  (difficulty_ : string) (st : Store) :
  create_meal float_repr name cuisine_ price_ difficulty_ st
  = if negb (number_pos price_)
    then (inl (ValueError InvalidInput
                 ("Invalid price: " ++ str_number float_repr price_
                  ++ ". Price must be a positive number.")), st)
    else if negb (valid_difficulty difficulty_)
    then (inl (ValueError InvalidInput
                 ("Invalid difficulty level: " ++ difficulty_
                  ++ ". Must be 'LOW', 'MED', or 'HIGH'.")), st)
    else match find_name name st with
         | Some _ => (inl (ValueError Conflict
                             ("Meal with name '" ++ name
                              ++ "' already exists")), st)
         | None => (inr (next_id st),
                    (st ++ [mkRow (next_id st) name cuisine_ price_
                              difficulty_ 0 0 false])%list)
         end.
Proof.
  unfold create_meal.
  destruct (negb (number_pos price_)); [reflexivity|].
  destruct (negb (valid_difficulty difficulty_)); [reflexivity|].
  unfold ES.bind, ES.get, ES.modify, ES.ret, ES.raise.
  destruct (find_name name st); reflexivity.
Qed.

Lemma number_le0_not_pos (p : number) :
  number_le0 p = true -> number_pos p = false.
Proof.
  destruct p as [z|f]; cbn.
  - intros H; apply Z.leb_le in H; apply Z.ltb_ge; exact H.
  - apply leb_zero_not_pos.
Qed.

Lemma valid_difficulty_In (d : string) :
  valid_difficulty d = true <-> In d ["LOW"; "MED"; "HIGH"].
Proof.
  unfold valid_difficulty, difficulties; rewrite existsb_exists; split.
  - intros (x & Hx & E); apply String.eqb_eq in E; subst x; exact Hx.
  - intros H; exists d; split; [exact H|apply String.eqb_refl].
Qed.

(** C8. [create_meal] raises InvalidInput with a message that contains
    the rejected price whenever [price <= 0], and raises InvalidInput
    whenever the difficulty is not LOW, MED or HIGH; in both cases the
    store is the one of before, so no row is persisted.  Creating
    ("Pizza", "Italian", -1, "MED") fails with the message of the test,
    which mentions -1. *)
Theorem create_meal_rejects (name cuisine_ : string) (price_ : number)
  (difficulty_ : string) (st : Store) :
  (number_le0 price_ = true ->
   exists msg,
     create_meal float_repr name cuisine_ price_ difficulty_ st
     = (inl (ValueError InvalidInput msg), st)
     /\ contains (str_number float_repr price_) msg)
  /\ (~ In difficulty_ ["LOW"; "MED"; "HIGH"] ->
      exists msg,
        create_meal float_repr name cuisine_ price_ difficulty_ st
        = (inl (ValueError InvalidInput msg), st))
  /\ create_meal float_repr "Pizza" "Italian" (Int (-1)) "MED" st
     = (inl (ValueError InvalidInput
               "Invalid price: -1. Price must be a positive number."), st).
Proof.
  split; [|split].
  - intros H; rewrite create_meal_run, (number_le0_not_pos _ H); cbn [negb].
    eexists; split; [reflexivity|].
    exists "Invalid price: ", ". Price must be a positive number.".
    reflexivity.
  - intros H; rewrite create_meal_run.
    destruct (negb (number_pos price_)); [eexists; reflexivity|].
    destruct (valid_difficulty difficulty_) eqn:Hv;
      [apply valid_difficulty_In in Hv; contradiction|].
    eexists; reflexivity.
  - reflexivity.
Qed.

Lemma map_stats_ok (f : Row -> Row) (st : Store) :
  (forall r, stats_ok r -> stats_ok (f r)) ->
  Forall stats_ok st -> Forall stats_ok (map f st).
Proof.
  intros Hf H; apply Forall_map; revert H; apply Forall_impl; exact Hf.
Qed.

Lemma run_preserves (o : op) (st : Store) :
  Forall stats_ok st -> Forall stats_ok (run float_repr o st).
Proof.
  intros H; destruct o as [n c p d|i|i|n|k|i r|]; cbn [run].
  - rewrite create_meal_run.
    destruct (negb (number_pos p)); [exact H|].
    destruct (negb (valid_difficulty d)); [exact H|].
    destruct (find_name n st); [exact H|]; cbn [snd].
    apply Forall_app; split; [exact H|].
    constructor; [|constructor]; unfold stats_ok; cbn; lia.
  - unfold delete_meal, ES.bind; rewrite live_row_run.
    destruct (find_id i st) as [r|]; [|exact H].
    destruct (deleted r); [exact H|]; cbn.
    apply map_stats_ok; [|exact H].
    intros x Hx; unfold set_deleted; destruct (row_id x =? i); exact Hx.
  - unfold get_meal_by_id, ES.bind; rewrite live_row_run.
    destruct (find_id i st) as [r|]; [|exact H].
    destruct (deleted r); exact H.
  - unfold get_meal_by_name, ES.bind, ES.get.
    destruct (find_name n st); exact H.
  - exact H.
  - rewrite update_meal_stats_run.
    destruct (String.eqb r "win" || String.eqb r "loss"); [|exact H].
    destruct (find_id i st) as [x|]; [|exact H].
    destruct (deleted x); [exact H|]; cbn [snd].
    destruct (String.eqb r "win"); apply map_stats_ok; try exact H;
      intros y Hy; unfold record_win, record_loss, stats_ok in *;
      destruct (row_id y =? i); cbn; lia.
  - constructor.
Qed.

(** C6. [wins <= battles] holds of every row of every store reachable
    from the empty one by the operations of the store: a row is created
    with both counters at zero, every operation preserves the invariant
    whether it returns or raises, [update_meal_stats] with "win" and with
    "loss" in particular. *)
Theorem wins_le_battles_invariant :
  (forall name cuisine_ price_ difficulty_ st i st',
      create_meal float_repr name cuisine_ price_ difficulty_ st
      = (inr i, st') ->
      st' = (st ++ [mkRow i name cuisine_ price_ difficulty_ 0 0 false])%list)
  /\ (forall o st,
         Forall stats_ok st -> Forall stats_ok (run float_repr o st))
  /\ (forall meal_id st,
         Forall stats_ok st ->
         Forall stats_ok (snd (update_meal_stats meal_id "win" st))
         /\ Forall stats_ok (snd (update_meal_stats meal_id "loss" st)))
  /\ (forall st, reachable float_repr st -> Forall stats_ok st).
Proof.
  split; [|split; [|split]].
  - intros n c p d st i st'; rewrite create_meal_run.
    destruct (negb (number_pos p)); [discriminate|].
    destruct (negb (valid_difficulty d)); [discriminate|].
    destruct (find_name n st); [discriminate|].
    intros [= <- <-]; reflexivity.
  - exact run_preserves.
  - intros i st H; split.
    + exact (run_preserves (UpdateStats i "win") st H).
    + exact (run_preserves (UpdateStats i "loss") st H).
  - intros st H; induction H as [|st o _ IH]; [constructor|].
    apply run_preserves; exact IH.
Qed.

End StoreFacts.

(** ** The leaderboard *)









(** * The scenarios of the specification and of the tests *)

(** Pizza scores 10 * 7 - 2 = 68 and Sushi 12 * 8 - 1 = 95. *)
Lemma score_of_pizza :
  get_battle_score pizza arena0 = (inr 68%float, arena0).
Proof.
  exact (get_battle_score_formula Kitchen.Store arena0 pizza MED eq_refl).
Defined.

(** The gap is 0.27 and the sample 0.1 is below it: Pizza, prepped first,
    wins. *)
Lemma pizza_beats_sushi :
  fst (battle (ES.ret tenth) update_meal_stats arena0) = inr "Pizza".
Proof.
  refine (proj2 (battle_winner_rule Kitchen.Store (ES.ret tenth)
                   update_meal_stats arena0 pizza sushi 68%float 95%float
                   tenth kitchen0 eq_refl eq_refl eq_refl eq_refl)
            (map (record_win 1) kitchen0) kitchen1 eq_refl eq_refl).
Defined.

(** The battle of the test: Pizza stays alone in the roster, Pizza's win
    is recorded before Sushi's loss, and the store ends with both. *)
Lemma battle_of_the_test :
  exists winner loser r e1 e2,
    ((winner, loser) = (pizza, sushi) \/ (winner, loser) = (sushi, pizza))
    /\ "Pizza" = meal winner
    /\ combatants arena1 = [winner]
    /\ trace arena1
       = (trace arena0 ++ [GetRandom; UpdateMealStats (id winner) "win";
                           UpdateMealStats (id loser) "loss"])%list
    /\ ES.ret tenth (env arena0) = (inr r, e1)
    /\ update_meal_stats (id winner) "win" e1 = (inr tt, e2)
    /\ update_meal_stats (id loser) "loss" e2 = (inr tt, env arena1).
Proof.
  apply (battle_success Kitchen.Store (ES.ret tenth) update_meal_stats
           arena0 arena1 pizza sushi "Pizza").
  - intros e r e' H; injection H as <- _; split; reflexivity.
  - reflexivity.
  - reflexivity.
Defined.

(** No battle in an empty arena. *)
Lemma battle_in_empty_arena :
  battle (ES.ret tenth) update_meal_stats (mkWorld [] kitchen0 [])
  = (inl (ValueError InvalidState
            "Two combatants must be prepped for a battle."),
     mkWorld [] kitchen0 []).
Proof.
  apply (battle_needs_two_combatants Kitchen.Store (ES.ret tenth)
           update_meal_stats (mkWorld [] kitchen0 [])).
  cbn; repeat constructor.
Defined.

(** A third combatant is refused, a second one is appended. *)
Lemma prep_third_and_second :
  prep_combatant pizza arena0
  = (inl (ValueError Full
            "Combatant list is full, cannot add more combatants."), arena0)
  /\ prep_combatant sushi (mkWorld [pizza] kitchen0 [])
     = (inr tt, arena0).
Proof.
  split.
  - exact (proj1 (prep_combatant_capacity Kitchen.Store arena0 pizza) eq_refl).
  - refine (proj2 (prep_combatant_capacity Kitchen.Store
                     (mkWorld [pizza] kitchen0 []) sushi) _).
    cbn; repeat constructor.
Defined.

(** A difficulty in lower case has no weight. *)
Lemma score_of_lower_case :
  get_battle_score (mkMeal 2 "Sushi" "Japanese" 12%float "high") arena0
  = (inl (KeyError "high"), arena0).
Proof.
  refine (proj2 (get_battle_score_total_on_listed Kitchen.Store arena0
                   (mkMeal 2 "Sushi" "Japanese" 12%float "high")) _).
  cbn; intros [H | [H | [H | []]]]; discriminate H.
Defined.

(** Pizza's win in the store of the tests. *)
Lemma pizza_win_recorded :
  exists st',
    update_meal_stats 1 "win" kitchen0 = (inr tt, st')
    /\ find_id 1 st'
       = Some (mkRow 1 "Pizza" "Italian" (Float 10%float) "MED" 1 1 false)
    /\ forall j, j <> 1 -> find_id j st' = find_id j kitchen0.
Proof.
  exact (proj1 (proj1 (update_meal_stats_spec 1 kitchen0)
                  (mkRow 1 "Pizza" "Italian" (Float 10%float) "MED" 0 0 false)
                  eq_refl eq_refl)).
Defined.

(** The store after the battle of the test is reachable and in order. *)
Lemma kitchen1_in_order : Forall stats_ok kitchen1.
Proof.
  refine (proj2 (proj2 (proj2 (wins_le_battles_invariant plain_repr)))
            kitchen1 _).
  change kitchen1 with
    (run plain_repr (UpdateStats 2 "loss")
       (run plain_repr (UpdateStats 1 "win")
          (run plain_repr (Create "Sushi" "Japanese" (Float 12%float) "HIGH")
             (run plain_repr (Create "Pizza" "Italian" (Float 10%float) "MED")
                [])))).
  repeat apply reach_step; apply reach_empty.
Defined.

(** [create_meal("Pizza", "Italian", -1, "MED")] *)
Lemma create_with_negative_price :
  exists msg,
    create_meal plain_repr "Pizza" "Italian" (Int (-1)) "MED" kitchen0
    = (inl (ValueError InvalidInput msg), kitchen0)
    /\ contains "-1" msg.
Proof.
  exact (proj1 (create_meal_rejects plain_repr "Pizza" "Italian" (Int (-1))
                  "MED" kitchen0) eq_refl).
Defined.

(** With a sample of 0.3, above the gap, Sushi wins. *)
Example sushi_beats_pizza :
  fst (battle (ES.ret 0x1.3333333333333p-2%float) update_meal_stats arena0)
  = inr "Sushi".
Proof. reflexivity. Qed.

(** With four wins against three, Sushi leads the leaderboard. *)
Example leaderboard_of_the_test :
  map (fun e => row_meal (entry_row e))
    (match fst (get_leaderboard None kitchen2) with
     | inr board => board
     | inl _ => []
     end) = ["Sushi"; "Pizza"].
Proof. reflexivity. Qed.

(** * Further properties of the battle model *)

(** ** Floats *)

(** A score against itself: the difference is a zero, or NaN when the
    score is infinite or NaN, and so is the delta. *)
Lemma delta_of_same (s : float) :
  delta_of s s = 0%float \/ delta_of s s = nan.
Proof.
  assert (Hsub : Prim2SF (PrimFloat.sub s s) = S754_zero false
                 \/ Prim2SF (PrimFloat.sub s s) = S754_nan).
  { rewrite FloatAxioms.sub_spec; unfold SF64sub, SFsub.
    destruct (Prim2SF s) as [sx| sx| |sx mx ex].
    - left; destruct sx; reflexivity.
    - right; destruct sx; reflexivity.
    - right; reflexivity.
    - left; cbv zeta; rewrite Z.sub_diag; reflexivity. }
  unfold delta_of.
  destruct Hsub as [H | H]; [left | right]; apply Prim2SF_inj;
    rewrite FloatAxioms.div_spec, FloatAxioms.abs_spec, H; reflexivity.
Qed.

(** With equal scores no sample that is not negative is below the delta. *)
Lemma ltb_delta_of_same (s r : float) :
  PrimFloat.leb 0%float r = true -> PrimFloat.ltb r (delta_of s s) = false.
Proof.
  intros Hr; destruct (delta_of_same s) as [-> | ->];
    [apply ltb_zero; exact Hr | apply ltb_nan].
Qed.

(** The order of the floats is transitive. *)
Lemma ltb_leb_trans (x y z : float) :
  PrimFloat.ltb x y = true -> PrimFloat.leb y z = true ->
  PrimFloat.ltb x z = true.
Proof.
  rewrite !FloatAxioms.ltb_spec, FloatAxioms.leb_spec.
  unfold SFltb, SFleb, SFcompare.
  destruct (Prim2SF x) as [sx| sx| |sx mx ex];
    destruct (Prim2SF y) as [sy| sy| |sy my ey];
    destruct (Prim2SF z) as [sz| sz| |sz mz ez];
    try discriminate;
    repeat match goal with
           | s : bool |- _ => destruct s
           end;
    try discriminate; try reflexivity;
    change (PosDef.Pos.compare_cont Datatypes.Eq) with Pos.compare;
    destruct (Z.compare_spec ex ey); try discriminate;
    destruct (Z.compare_spec ey ez); try discriminate;
    destruct (Z.compare_spec ex ez); try reflexivity; try lia;
    subst;
    destruct (Pos.compare_spec mx my); try discriminate;
    destruct (Pos.compare_spec my mz); try discriminate;
    destruct (Pos.compare_spec mx mz); try reflexivity; try lia;
    cbn; try discriminate; try reflexivity.
Qed.

(** NaN spreads through the score and through the delta. *)
Lemma score_with_nan (c : Meal) (m : Z) :
  price c = nan -> score_with c m = nan.
Proof.
  intros H; unfold score_with; rewrite H; apply Prim2SF_inj.
  rewrite FloatAxioms.sub_spec, FloatAxioms.mul_spec; reflexivity.
Qed.

Lemma delta_of_nan (s : float) :
  delta_of nan s = nan /\ delta_of s nan = nan.
Proof.
  unfold delta_of; split; apply Prim2SF_inj;
    rewrite FloatAxioms.div_spec, FloatAxioms.abs_spec, FloatAxioms.sub_spec;
    change (Prim2SF nan) with S754_nan; unfold SF64sub, SFsub;
    destruct (Prim2SF s); reflexivity.
Qed.

(** ** Battles on any roster *)

Lemma subscript_listed (d : string) :
  listed d -> exists m, subscript difficulty_modifier d = inr m.
Proof. intros [<- | [<- | [<- | []]]]; eexists; reflexivity. Qed.

Lemma subscript_unlisted (d : string) :
  ~ listed d -> subscript difficulty_modifier d = inl (KeyError d).
Proof.
  intros Hn; unfold subscript, difficulty_modifier, dict_get.
  destruct (String.eqb_spec "HIGH" d) as [E|_];
    [exfalso; apply Hn; rewrite <- E; cbn; auto|].
  destruct (String.eqb_spec "MED" d) as [E|_];
    [exfalso; apply Hn; rewrite <- E; cbn; auto|].
  destruct (String.eqb_spec "LOW" d) as [E|_];
    [exfalso; apply Hn; rewrite <- E; cbn; auto|].
  reflexivity.
Qed.

(** The removal of one of the first two combatants keeps the other and
    the rest of the roster. *)
Lemma remove_first_two (c1 c2 : Meal) (rest : list Meal) (first : bool) :
  exists x, list_remove (if first then c2 else c1) (c1 :: c2 :: rest)
            = Some (x :: rest)
            /\ (x = c1 \/ x = c2).
Proof.
  destruct first; cbn [list_remove].
  - destruct (py_same c1 c2); [eauto|].
    rewrite py_same_refl; cbn; eauto.
  - rewrite py_same_refl; eauto.
Qed.

Section BattleOnAnyRoster.

Variable Env : Type.
Variable get_random : ES.t Env float.
Variable update_meal_stats : Z -> string -> ES.t Env unit.

Implicit Types (w : World Env) (c : Meal).

Lemma battle_short w :
  (List.length (combatants w) < 2)%nat ->
  battle get_random update_meal_stats w
  = (inl (ValueError InvalidState
            "Two combatants must be prepped for a battle."), w).
Proof.
  intros H; unfold battle, ES.bind, ES.get.
  apply Nat.ltb_lt in H; rewrite H; reflexivity.
Qed.

Lemma battle_any_no_score w (c1 c2 : Meal) (rest : list Meal) (e : exn) :
  combatants w = c1 :: c2 :: rest ->
  subscript difficulty_modifier (difficulty c1) = inl e
  \/ (exists m1, subscript difficulty_modifier (difficulty c1) = inr m1)
     /\ subscript difficulty_modifier (difficulty c2) = inl e ->
  battle get_random update_meal_stats w = (inl e, w).
Proof.
  intros Hc H.
  unfold battle, ES.bind at 1, ES.get.
  rewrite Hc; cbn [List.length Nat.ltb Nat.leb item nth_error].
  unfold ES.bind at 1, ES.ret at 1.
  unfold ES.bind at 1, ES.ret at 1.
  unfold ES.bind at 1; rewrite get_battle_score_run.
  destruct H as [H1 | [[m1 H1] H2]]; rewrite H1; [reflexivity|].
  unfold ES.bind at 1; rewrite get_battle_score_run, H2; reflexivity.
Qed.

Lemma battle_any_no_sample w (c1 c2 : Meal) (rest : list Meal) (m1 m2 : Z)
  (e : exn) (e1 : Env) :
  combatants w = c1 :: c2 :: rest ->
  subscript difficulty_modifier (difficulty c1) = inr m1 ->
  subscript difficulty_modifier (difficulty c2) = inr m2 ->
  get_random (env w) = (inl e, e1) ->
  battle get_random update_meal_stats w
  = (inl e, mkWorld (c1 :: c2 :: rest) e1 (trace w ++ [GetRandom])).
Proof.
  intros Hc H1 H2 Hr.
  unfold battle, ES.bind at 1, ES.get.
  rewrite Hc; cbn [List.length Nat.ltb Nat.leb item nth_error].
  unfold ES.bind at 1, ES.ret at 1.
  unfold ES.bind at 1, ES.ret at 1.
  unfold ES.bind at 1; rewrite get_battle_score_run, H1.
  unfold ES.bind at 1; rewrite get_battle_score_run, H2.
  unfold ES.bind at 1, call_get_random, ES.bind at 1, log, ES.modify,
    ES.zoom; cbn [env]; rewrite Hr.
  unfold set_env; cbn [env trace combatants]; rewrite Hc; reflexivity.
Qed.

(** The battle once both scores and the sample are there, whatever the
    store answers. *)
Lemma battle_any_run w (c1 c2 : Meal) (rest : list Meal) (m1 m2 : Z)
  (r : float) (e1 : Env) :
  combatants w = c1 :: c2 :: rest ->
  subscript difficulty_modifier (difficulty c1) = inr m1 ->
  subscript difficulty_modifier (difficulty c2) = inr m2 ->
  get_random (env w) = (inr r, e1) ->
  let first :=
    PrimFloat.ltb r (delta_of (score_with c1 m1) (score_with c2 m2)) in
  let winner := if first then c1 else c2 in
  let loser := if first then c2 else c1 in
  let roster := c1 :: c2 :: rest in
  let t1 := (trace w ++ firstn 2 (battle_calls winner loser))%list in
  let t2 := (trace w ++ battle_calls winner loser)%list in
  battle get_random update_meal_stats w
  = match update_meal_stats (id winner) "win" e1 with
    | (inl e, e2) => (inl e, mkWorld roster e2 t1)
    | (inr _, e2) =>
        match update_meal_stats (id loser) "loss" e2 with
        | (inl e, e3) => (inl e, mkWorld roster e3 t2)
        | (inr _, e3) =>
            match list_remove loser roster with
            | Some l => (inr (meal winner), mkWorld l e3 t2)
            | None => (inl NotInList, mkWorld roster e3 t2)
            end
        end
    end.
Proof.
  intros Hc H1 H2 Hr first winner loser roster t1 t2.
  unfold battle, ES.bind at 1, ES.get.
  rewrite Hc; cbn [List.length Nat.ltb Nat.leb item nth_error].
  unfold ES.bind at 1, ES.ret at 1.
  unfold ES.bind at 1, ES.ret at 1.
  unfold ES.bind at 1; rewrite get_battle_score_run, H1.
  unfold ES.bind at 1; rewrite get_battle_score_run, H2.
  unfold ES.bind at 1, call_get_random, ES.bind at 1, log, ES.modify,
    ES.zoom; cbn [env]; rewrite Hr.
  change (PrimFloat.ltb r _) with first.
  unfold call_update_meal_stats, remove_combatant, log, ES.bind, ES.modify,
    ES.zoom, ES.get, ES.ret, ES.raise, set_env, set_combatants.
  subst winner loser roster t1 t2; unfold battle_calls; destruct first;
    cbn [env trace combatants firstn]; rewrite <- ?app_assoc, ?Hc; cbn [app];
    (destruct (update_meal_stats _ "win" e1) as [[e|[]] e2];
     cbn [env trace combatants]; [reflexivity|]);
    (destruct (update_meal_stats _ "loss" e2) as [[e|[]] e3];
     cbn [env trace combatants]; rewrite <- ?app_assoc; cbn [app];
     [reflexivity|]);
    match goal with
    | |- context [list_remove ?x ?l] => destruct (list_remove x l)
    end; reflexivity.
Qed.

End BattleOnAnyRoster.

Section BattleOutcomes.

Variable Env : Type.
Variable get_random : ES.t Env float.
Variable update_meal_stats : Z -> string -> ES.t Env unit.

Implicit Types (w : World Env) (c : Meal).

(** Every way a battle can end, with the world it leaves. *)
Lemma battle_cases w :
  (exists e, battle get_random update_meal_stats w = (inl e, w))
  \/ exists c1 c2 rest winner loser,
      combatants w = c1 :: c2 :: rest
      /\ ((winner, loser) = (c1, c2) \/ (winner, loser) = (c2, c1))
      /\ ((exists e n, (1 <= n <= 3)%nat /\ exists env',
              battle get_random update_meal_stats w
              = (inl e, mkWorld (c1 :: c2 :: rest) env'
                          (trace w ++ firstn n (battle_calls winner loser))))
          \/ exists env' y,
              battle get_random update_meal_stats w
              = (inr (meal winner),
                 mkWorld (y :: rest) env'
                   (trace w ++ battle_calls winner loser))
              /\ (y = c1 \/ y = c2)).
Proof.
  destruct (combatants w) as [|c1 [|c2 rest]] eqn:Hc;
    try (left; eexists; apply battle_short; rewrite Hc; cbn; lia).
  destruct (subscript difficulty_modifier (difficulty c1)) as [e|m1] eqn:H1;
    [left; exists e; apply (battle_any_no_score _ _ _ w c1 c2 rest); auto|].
  destruct (subscript difficulty_modifier (difficulty c2)) as [e|m2] eqn:H2;
    [left; exists e; apply (battle_any_no_score _ _ _ w c1 c2 rest); eauto|].
  right; exists c1, c2, rest.
  destruct (get_random (env w)) as [[e|r] e1] eqn:Hr.
  { exists c1, c2; split; [reflexivity|]; split; [auto|].
    left; exists e, 1%nat; split; [lia|]; exists e1.
    apply (battle_any_no_sample _ _ _ w c1 c2 rest m1 m2); assumption. }
  pose proof (battle_any_run _ get_random update_meal_stats w c1 c2 rest
                m1 m2 r e1 Hc H1 H2 Hr) as Hb; cbv zeta in Hb.
  set (first := PrimFloat.ltb r
                  (delta_of (score_with c1 m1) (score_with c2 m2))) in *.
  destruct (remove_first_two c1 c2 rest first) as (y & Hy & Hy').
  rewrite Hy in Hb.
  exists (if first then c1 else c2), (if first then c2 else c1).
  split; [reflexivity|]; split; [destruct first; auto|].
  destruct (update_meal_stats (id (if first then c1 else c2)) "win" e1)
    as [[e|u] e2].
  { left; exists e, 2%nat; split; [lia|]; exists e2; exact Hb. }
  destruct (update_meal_stats (id (if first then c2 else c1)) "loss" e2)
    as [[e|u'] e3].
  { left; exists e, 3%nat; split; [lia|]; exists e3; exact Hb. }
  right; exists e3, y; split; [exact Hb|exact Hy'].
Qed.

(** Who the battle picks, from the two weights and the sample. *)
Lemma battle_picks_by w (c1 c2 : Meal) (rest : list Meal) (m1 m2 : Z)
  (r : float) (e1 : Env) :
  combatants w = c1 :: c2 :: rest ->
  subscript difficulty_modifier (difficulty c1) = inr m1 ->
  subscript difficulty_modifier (difficulty c2) = inr m2 ->
  get_random (env w) = (inr r, e1) ->
  let first :=
    PrimFloat.ltb r (delta_of (score_with c1 m1) (score_with c2 m2)) in
  let winner := if first then c1 else c2 in
  let loser := if first then c2 else c1 in
  (exists more,
      trace (snd (battle get_random update_meal_stats w))
      = (trace w
           ++ GetRandom :: UpdateMealStats (id winner) "win" :: more)%list)
  /\ (forall e2 e3,
         update_meal_stats (id winner) "win" e1 = (inr tt, e2) ->
         update_meal_stats (id loser) "loss" e2 = (inr tt, e3) ->
         fst (battle get_random update_meal_stats w) = inr (meal winner)).
Proof.
  intros Hc H1 H2 Hr first winner loser.
  rewrite (battle_any_run _ _ _ w c1 c2 rest m1 m2 r e1 Hc H1 H2 Hr).
  fold first; fold winner; fold loser.
  destruct (remove_first_two c1 c2 rest first) as (y & Hy & _).
  fold loser in Hy; unfold battle_calls; cbn [firstn].
  split.
  - destruct (update_meal_stats (id winner) "win" e1) as [[e|u] e2];
      [eexists; reflexivity|].
    destruct (update_meal_stats (id loser) "loss" e2) as [[e|u'] e3];
      [eexists; reflexivity|].
    rewrite Hy; eexists; reflexivity.
  - intros e2 e3 Hw Hl; rewrite Hw, Hl, Hy; reflexivity.
Qed.

End BattleOutcomes.

Section BattleExtras.

Variable Env : Type.
Variable get_random : ES.t Env float.
Variable update_meal_stats : Z -> string -> ES.t Env unit.

Implicit Types (w : World Env) (c : Meal).

(** X1. A combatant whose difficulty has no weight stops the battle with
    the [KeyError] of the failed lookup, the first combatant's when both
    fail; the world is left as it was: the supplier is not called, no
    statistics are updated, the roster is unchanged. *)
Theorem battle_unlisted_difficulty w (c1 c2 : Meal) (rest : list Meal) :
  combatants w = c1 :: c2 :: rest ->
  (~ listed (difficulty c1) ->
   battle get_random update_meal_stats w
   = (inl (KeyError (difficulty c1)), w))
  /\ (listed (difficulty c1) -> ~ listed (difficulty c2) ->
      battle get_random update_meal_stats w
      = (inl (KeyError (difficulty c2)), w)).
Proof.
  intros Hc; split.
  - intros H1; apply (battle_any_no_score _ _ _ w c1 c2 rest _ Hc).
    left; apply subscript_unlisted; exact H1.
  - intros H1 H2; apply (battle_any_no_score _ _ _ w c1 c2 rest _ Hc).
    right; split; [apply subscript_listed; exact H1|].
    apply subscript_unlisted; exact H2.
Qed.

(** X2. When the random supplier raises, the battle raises the same
    exception: the call to the supplier is the only one made, no
    statistics are updated and both combatants stay in the roster. *)
Theorem battle_supplier_failure w (c1 c2 : Meal) (rest : list Meal)
  (e : exn) (e1 : Env) :
  combatants w = c1 :: c2 :: rest ->
  listed (difficulty c1) ->
  listed (difficulty c2) ->
  get_random (env w) = (inl e, e1) ->
  battle get_random update_meal_stats w
  = (inl e, mkWorld (combatants w) e1 (trace w ++ [GetRandom])).
Proof.
  intros Hc H1 H2 Hr.
  destruct (subscript_listed _ H1) as [m1 Hm1].
  destruct (subscript_listed _ H2) as [m2 Hm2].
  rewrite Hc.
  apply (battle_any_no_sample _ _ _ w c1 c2 rest m1 m2); assumption.
Qed.

(** X3. The two statistics updates are made one after the other and
    nothing is undone.  If the winner's update raises, the battle raises
    the same exception and the loser's update is not issued.  If the
    loser's update raises, the battle raises the same exception, on the
    state the winner's update left.  In both cases the roster still holds
    both combatants.  If both return, the battle returns the winner's name
    on the state the loser's update left, with one of the two combatants
    out of the roster. *)
Theorem battle_store_outcomes w (c1 c2 : Meal) (rest : list Meal)
  (score_1 score_2 r : float) (e1 : Env) :
  combatants w = c1 :: c2 :: rest ->
  get_battle_score c1 w = (inr score_1, w) ->
  get_battle_score c2 w = (inr score_2, w) ->
  get_random (env w) = (inr r, e1) ->
  let first := PrimFloat.ltb r (delta_of score_1 score_2) in
  let winner := if first then c1 else c2 in
  let loser := if first then c2 else c1 in
  (forall e e2,
      update_meal_stats (id winner) "win" e1 = (inl e, e2) ->
      battle get_random update_meal_stats w
      = (inl e, mkWorld (combatants w) e2
                  (trace w ++ [GetRandom; UpdateMealStats (id winner) "win"])))
  /\ (forall e e2 e3,
         update_meal_stats (id winner) "win" e1 = (inr tt, e2) ->
         update_meal_stats (id loser) "loss" e2 = (inl e, e3) ->
         battle get_random update_meal_stats w
         = (inl e, mkWorld (combatants w) e3
                     (trace w ++ battle_calls winner loser)))
  /\ (forall e2 e3,
         update_meal_stats (id winner) "win" e1 = (inr tt, e2) ->
         update_meal_stats (id loser) "loss" e2 = (inr tt, e3) ->
         exists y,
           battle get_random update_meal_stats w
           = (inr (meal winner),
              mkWorld (y :: rest) e3 (trace w ++ battle_calls winner loser))
           /\ (y = c1 \/ y = c2)).
Proof.
  intros Hc H1 H2 Hr.
  apply score_modifier in H1; destruct H1 as (m1 & H1 & ->).
  apply score_modifier in H2; destruct H2 as (m2 & H2 & ->).
  intros first winner loser.
  rewrite (battle_any_run _ _ _ w c1 c2 rest m1 m2 r e1 Hc H1 H2 Hr).
  fold first; fold winner; fold loser; rewrite Hc.
  split; [|split].
  - intros e e2 ->; reflexivity.
  - intros e e2 e3 -> ->; reflexivity.
  - intros e2 e3 -> ->.
    destruct (remove_first_two c1 c2 rest first) as (y & Hy & Hy').
    fold loser in Hy; rewrite Hy; eauto.
Qed.

(** X4. A battle that raises leaves the roster as it was; a battle that
    returns takes one of the first two combatants out and keeps the other
    in front of the rest, which is untouched. *)
Theorem battle_roster_effect w :
  match battle get_random update_meal_stats w with
  | (inl _, w') => combatants w' = combatants w
  | (inr _, w') =>
      exists c1 c2 rest y,
        combatants w = c1 :: c2 :: rest
        /\ combatants w' = y :: rest
        /\ (y = c1 \/ y = c2)
  end.
Proof.
  destruct (battle_cases _ get_random update_meal_stats w)
    as [[e ->] | (c1 & c2 & rest & wi & lo & Hc & _ & H)]; [reflexivity|].
  destruct H as [(e & n & _ & x & ->) | (x & y & -> & Hy)].
  - symmetry; exact Hc.
  - exists c1, c2, rest, y; auto.
Qed.

(** X5. The calls of a battle.  Either the battle raises with the world
    as it was, having called nobody, or it makes a beginning of the
    sequence supplier, winner's update with "win", loser's update with
    "loss", for the first two combatants in one of the two orders: the
    supplier is called once, "loss" is never recorded before "win", the
    state of the collaborators afterwards is what these calls, made in
    this order, leave, and a battle that returns has made all three. *)
Theorem battle_calls_made w :
  (exists e, battle get_random update_meal_stats w = (inl e, w))
  \/ exists c1 c2 rest winner loser n,
      combatants w = c1 :: c2 :: rest
      /\ ((winner, loser) = (c1, c2) \/ (winner, loser) = (c2, c1))
      /\ (1 <= n <= 3)%nat
      /\ trace (snd (battle get_random update_meal_stats w))
         = (trace w ++ firstn n (battle_calls winner loser))%list
      /\ env (snd (battle get_random update_meal_stats w))
         = run_calls get_random update_meal_stats
             (firstn n (battle_calls winner loser)) (env w)
      /\ (forall name,
             fst (battle get_random update_meal_stats w) = inr name ->
             n = 3%nat).
Proof.
  destruct (combatants w) as [|c1 [|c2 rest]] eqn:Hc;
    try (left; eexists; apply battle_short; rewrite Hc; cbn; lia).
  destruct (subscript difficulty_modifier (difficulty c1)) as [e|m1] eqn:H1;
    [left; exists e; apply (battle_any_no_score _ _ _ w c1 c2 rest); auto|].
  destruct (subscript difficulty_modifier (difficulty c2)) as [e|m2] eqn:H2;
    [left; exists e; apply (battle_any_no_score _ _ _ w c1 c2 rest); eauto|].
  right; exists c1, c2, rest.
  destruct (get_random (env w)) as [[e|r] e1] eqn:Hr.
  { exists c1, c2, 1%nat.
    rewrite (battle_any_no_sample _ _ _ w c1 c2 rest m1 m2 e e1 Hc H1 H2 Hr).
    cbn [fst snd env trace firstn battle_calls run_calls]; rewrite Hr.
    repeat split; auto; try lia; discriminate. }
  rewrite (battle_any_run _ _ _ w c1 c2 rest m1 m2 r e1 Hc H1 H2 Hr).
  set (first := PrimFloat.ltb r
                  (delta_of (score_with c1 m1) (score_with c2 m2))).
  destruct (remove_first_two c1 c2 rest first) as (y & Hy & _).
  rewrite Hy.
  exists (if first then c1 else c2), (if first then c2 else c1).
  destruct (update_meal_stats (id (if first then c1 else c2)) "win" e1)
    as [[e|u] e2] eqn:Hw.
  { exists 2%nat.
    cbn [fst snd env trace firstn battle_calls run_calls]; rewrite Hr.
    cbn [snd]; rewrite Hw.
    repeat split; try lia; try discriminate; destruct first; auto. }
  destruct (update_meal_stats (id (if first then c2 else c1)) "loss" e2)
    as [[e|u'] e3] eqn:Hl;
    exists 3%nat;
    cbn [fst snd env trace firstn battle_calls run_calls]; rewrite Hr;
    cbn [snd]; rewrite Hw; cbn [snd]; rewrite Hl;
    repeat split; try lia; destruct first; auto.
Qed.

(** X6. However the methods of an arena are called after its creation,
    the roster never holds more than two combatants. *)
Theorem roster_never_exceeds_two w :
  arena_reachable get_random update_meal_stats w ->
  (List.length (combatants w) <= 2)%nat.
Proof.
  induction 1 as [e|m w _ IH]; [cbn; lia|].
  destruct m as [c| | | |c]; cbn [call_method].
  - unfold prep_combatant, ES.bind, ES.get, ES.raise, ES.modify.
    destruct (Nat.leb_spec 2 (List.length (combatants w))); cbn; [exact IH|].
    rewrite length_app; cbn; lia.
  - destruct (battle_cases _ get_random update_meal_stats w)
      as [[e ->] | (c1 & c2 & rest & wi & lo & Hc & _ & H)]; [exact IH|].
    rewrite Hc in IH.
    destruct H as [(e & n & _ & x & ->) | (x & y & -> & _)];
      cbn in *; lia.
  - cbn; lia.
  - exact IH.
  - rewrite get_battle_score_run; exact IH.
Qed.

End BattleExtras.

Section BattleRules.

Variable Env : Type.
Variable get_random : ES.t Env float.
Variable update_meal_stats : Z -> string -> ES.t Env unit.

Implicit Types (w : World Env) (c : Meal).

(** X7. [clear_combatants] never raises and calls nobody; whatever the
    roster was, the arena is then as empty as a new one: a battle raises
    for want of combatants, and two meals can be prepped again. *)
Theorem clear_combatants_resets w (a b : Meal) :
  let w0 := mkWorld [] (env w) (trace w) in
  clear_combatants w = (inr tt, w0)
  /\ battle get_random update_meal_stats w0
     = (inl (ValueError InvalidState
               "Two combatants must be prepped for a battle."), w0)
  /\ ES.bind (prep_combatant a) (fun _ => prep_combatant b) w0
     = (inr tt, mkWorld [a; b] (env w) (trace w)).
Proof.
  intros w0; split; [reflexivity|]; split; [|reflexivity].
  apply battle_short; cbn; lia.
Qed.

(** X8. After a battle between two combatants that returned, one
    combatant is left: a second battle raises for want of an opponent and
    changes nothing, while a challenger can be prepped behind the one
    that stayed. *)
Theorem rematch_needs_challenger w w' (c1 c2 : Meal) (name : string) :
  combatants w = [c1; c2] ->
  battle get_random update_meal_stats w = (inr name, w') ->
  battle get_random update_meal_stats w'
  = (inl (ValueError InvalidState
            "Two combatants must be prepped for a battle."), w')
  /\ exists y,
      combatants w' = [y]
      /\ forall c, prep_combatant c w'
                   = (inr tt, mkWorld [y; c] (env w') (trace w')).
Proof.
  intros Hc Hb.
  destruct (battle_cases _ get_random update_meal_stats w)
    as [[e He] | (a & b & rest & wi & lo & Hc' & _ & H)]; [congruence|].
  rewrite Hc in Hc'; injection Hc' as <- <- <-.
  destruct H as [(e & n & _ & x & He) | (x & y & He & _)]; [congruence|].
  rewrite Hb in He; injection He as _ ->.
  split; [apply battle_short; cbn; lia|].
  exists y; split; reflexivity.
Qed.

(** X9. Equal scores never favour the first combatant: with a supplier
    whose samples are not negative, the second combatant is picked, also
    when the same meal was prepped twice. *)
Theorem tie_goes_to_second w (c1 c2 : Meal) (rest : list Meal)
  (score : float) :
  (forall e r e', get_random e = (inr r, e') ->
                  PrimFloat.leb 0%float r = true) ->
  combatants w = c1 :: c2 :: rest ->
  get_battle_score c1 w = (inr score, w) ->
  get_battle_score c2 w = (inr score, w) ->
  picks get_random update_meal_stats w c2 c1.
Proof.
  intros Hrange Hc H1 H2 r e1 Hr.
  apply score_modifier in H1; destruct H1 as (m1 & H1 & E1).
  apply score_modifier in H2; destruct H2 as (m2 & H2 & E2).
  pose proof (battle_picks_by _ get_random update_meal_stats w c1 c2 rest
                m1 m2 r e1 Hc H1 H2 Hr) as H; cbv zeta in H.
  rewrite <- E1, <- E2, (ltb_delta_of_same score r (Hrange _ _ _ Hr)) in H.
  exact H.
Qed.

(** X10. A gap of a hundred points or more (a delta of at least 1) makes
    the first combatant the winner for every sample below 1, whichever of
    the two has the higher score. *)
Theorem wide_gap_goes_to_first w (c1 c2 : Meal) (rest : list Meal)
  (score_1 score_2 : float) :
  (forall e r e', get_random e = (inr r, e') ->
                  PrimFloat.ltb r 1%float = true) ->
  combatants w = c1 :: c2 :: rest ->
  get_battle_score c1 w = (inr score_1, w) ->
  get_battle_score c2 w = (inr score_2, w) ->
  PrimFloat.leb 1%float (delta_of score_1 score_2) = true ->
  picks get_random update_meal_stats w c1 c2.
Proof.
  intros Hrange Hc H1 H2 Hgap r e1 Hr.
  apply score_modifier in H1; destruct H1 as (m1 & H1 & E1).
  apply score_modifier in H2; destruct H2 as (m2 & H2 & E2).
  pose proof (battle_picks_by _ get_random update_meal_stats w c1 c2 rest
                m1 m2 r e1 Hc H1 H2 Hr) as H; cbv zeta in H.
  rewrite <- E1, <- E2,
    (ltb_leb_trans r 1%float _ (Hrange _ _ _ Hr) Hgap) in H.
  exact H.
Qed.

(** X11. A combatant whose price is NaN has the score NaN, the delta is
    NaN, no sample is below it, and the second combatant is picked
    whatever the sample. *)
Theorem nan_price_goes_to_second w (c1 c2 : Meal) (rest : list Meal) :
  combatants w = c1 :: c2 :: rest ->
  listed (difficulty c1) ->
  listed (difficulty c2) ->
  price c1 = nan \/ price c2 = nan ->
  picks get_random update_meal_stats w c2 c1.
Proof.
  intros Hc H1 H2 Hnan r e1 Hr.
  destruct (subscript_listed _ H1) as [m1 Hm1].
  destruct (subscript_listed _ H2) as [m2 Hm2].
  pose proof (battle_picks_by _ get_random update_meal_stats w c1 c2 rest
                m1 m2 r e1 Hc Hm1 Hm2 Hr) as H; cbv zeta in H.
  assert (E : PrimFloat.ltb r
                (delta_of (score_with c1 m1) (score_with c2 m2)) = false).
  { destruct Hnan as [Hn | Hn]; rewrite (score_with_nan _ _ Hn).
    - rewrite (proj1 (delta_of_nan _)); apply ltb_nan.
    - rewrite (proj2 (delta_of_nan _)); apply ltb_nan. }
  rewrite E in H; exact H.
Qed.

(** X12. Only [battle] talks to the collaborators: prepping a combatant,
    clearing the roster, reading it and computing a score leave the
    state of the supplier and of the store alone and add no call to the
    trace, whether they return or raise. *)
Theorem only_battle_calls (m : method) w :
  m <> Battle ->
  env (call_method get_random update_meal_stats m w) = env w
  /\ trace (call_method get_random update_meal_stats m w) = trace w.
Proof.
  intros Hm; destruct m as [c| | | |c]; cbn [call_method];
    [|contradiction| | |]; try (split; reflexivity).
  - unfold prep_combatant, ES.bind, ES.get, ES.raise, ES.modify.
    destruct (2 <=? List.length (combatants w))%nat; split; reflexivity.
  - rewrite get_battle_score_run; split; reflexivity.
Qed.

Lemma count_calls_app (p : call -> bool) (t t' : list call) :
  count_calls p (t ++ t') = (count_calls p t + count_calls p t')%nat.
Proof. unfold count_calls; rewrite filter_app, length_app; reflexivity. Qed.

(** X13. In the trace of an arena, from its creation on, there are never
    more updates with "loss" than updates with "win", nor more updates
    with "win" than calls to the supplier: no statistics are touched
    without a sample, and no loss is recorded without the win. *)
Theorem updates_follow_samples w :
  arena_reachable get_random update_meal_stats w ->
  (count_calls (is_update "loss") (trace w)
   <= count_calls (is_update "win") (trace w)
   <= count_calls is_sample (trace w))%nat.
Proof.
  induction 1 as [e|m w _ IH]; [cbn; lia|].
  destruct m as [c| | | |c].
  - cbn [call_method].
    unfold prep_combatant, ES.bind, ES.get, ES.raise, ES.modify.
    destruct (2 <=? List.length (combatants w))%nat; exact IH.
  - cbn [call_method].
    destruct (battle_cases _ get_random update_meal_stats w)
      as [[e ->] | (c1 & c2 & rest & wi & lo & _ & _ & H)]; [exact IH|].
    destruct H as [(e & n & Hn & x & ->) | (x & y & -> & _)];
      cbn [snd trace]; rewrite !count_calls_app.
    + assert (Hc : (n = 1 \/ n = 2 \/ n = 3)%nat) by lia.
      destruct Hc as [-> | [-> | ->]]; cbn; lia.
    + cbn; lia.
  - exact IH.
  - exact IH.
  - cbn [call_method]; rewrite get_battle_score_run; exact IH.
Qed.

End BattleRules.

(** ** Scenarios *)

(** Ramen's difficulty is "high": no score, no battle, nothing called. *)
Lemma battle_with_ramen :
  battle (ES.ret tenth) update_meal_stats (mkWorld [ramen; pizza] kitchen0 [])
  = (inl (KeyError "high"), mkWorld [ramen; pizza] kitchen0 []).
Proof.
  refine (proj1 (battle_unlisted_difficulty Kitchen.Store (ES.ret tenth)
                   update_meal_stats (mkWorld [ramen; pizza] kitchen0 [])
                   ramen pizza [] eq_refl) _).
  unfold listed; cbn; intros [H | [H | [H | []]]]; discriminate H.
Defined.

(** The supplier is down: the battle fails with its error, after the one
    call. *)
Lemma battle_without_supplier :
  battle random_down update_meal_stats arena0
  = (inl (ServiceUnavailable "random.org is unavailable"),
     mkWorld [pizza; sushi] kitchen0 [GetRandom]).
Proof.
  refine (battle_supplier_failure Kitchen.Store random_down update_meal_stats
            arena0 pizza sushi [] _ kitchen0 eq_refl _ _ eq_refl);
    unfold listed; cbn; auto.
Defined.

(** Sushi is not in the store: Pizza's win is recorded, Sushi's loss is
    refused, and both stay in the roster. *)
Lemma battle_with_unknown_loser :
  battle (ES.ret tenth) update_meal_stats
    (mkWorld [pizza; sushi] kitchen_pizza [])
  = (inl (ValueError NotFound "Meal with ID 2 not found"),
     mkWorld [pizza; sushi]
       [mkRow 1 "Pizza" "Italian" (Float 10%float) "MED" 1 1 false]
       [GetRandom; UpdateMealStats 1 "win"; UpdateMealStats 2 "loss"]).
Proof.
  refine (proj1 (proj2 (battle_store_outcomes Kitchen.Store (ES.ret tenth)
                          update_meal_stats
                          (mkWorld [pizza; sushi] kitchen_pizza [])
                          pizza sushi [] 68%float 95%float tenth
                          kitchen_pizza eq_refl eq_refl eq_refl eq_refl))
            _ _ _ eq_refl eq_refl).
Defined.

(** Two preps on a new arena. *)
Lemma two_preps_fit :
  (List.length
     (combatants
        (call_method (ES.ret tenth) update_meal_stats (Prep sushi)
           (call_method (ES.ret tenth) update_meal_stats (Prep pizza)
              (init kitchen0)))) <= 2)%nat.
Proof.
  apply (roster_never_exceeds_two Kitchen.Store (ES.ret tenth)
           update_meal_stats).
  repeat apply arena_call; apply arena_new.
Defined.

(** After Pizza beat Sushi, Pizza waits for a challenger. *)
Lemma pizza_waits :
  battle (ES.ret tenth) update_meal_stats arena1
  = (inl (ValueError InvalidState
            "Two combatants must be prepped for a battle."), arena1)
  /\ exists y,
      combatants arena1 = [y]
      /\ forall c, prep_combatant c arena1
                   = (inr tt, mkWorld [y; c] (env arena1) (trace arena1)).
Proof.
  exact (rematch_needs_challenger Kitchen.Store (ES.ret tenth)
           update_meal_stats arena0 arena1 pizza sushi "Pizza"
           eq_refl eq_refl).
Defined.

(** Pizza and Pasta both score 68: Pasta, prepped second, wins. *)
Lemma pasta_beats_pizza :
  fst (battle (ES.ret tenth) mock_update_meal_stats
         (mkWorld [pizza; pasta] tt []))
  = inr "Pasta".
Proof.
  refine (proj2 (tie_goes_to_second unit (ES.ret tenth)
                   mock_update_meal_stats (mkWorld [pizza; pasta] tt [])
                   pizza pasta [] 68%float _ eq_refl eq_refl eq_refl
                   tenth tt eq_refl) tt tt eq_refl eq_refl).
  intros e r e' H; injection H as <- _; reflexivity.
Defined.

(** Wagyu scores 799 against Pizza's 68, and Pizza, prepped first, wins
    at a sample of 0.9. *)
Lemma pizza_beats_wagyu :
  fst (battle (ES.ret nine_tenths) mock_update_meal_stats
         (mkWorld [pizza; wagyu] tt []))
  = inr "Pizza".
Proof.
  refine (proj2 (wide_gap_goes_to_first unit (ES.ret nine_tenths)
                   mock_update_meal_stats (mkWorld [pizza; wagyu] tt [])
                   pizza wagyu [] 68%float 799%float _ eq_refl eq_refl
                   eq_refl eq_refl nine_tenths tt eq_refl)
            tt tt eq_refl eq_refl).
  intros e r e' H; injection H as <- _; reflexivity.
Defined.

(** A meal without a price loses nothing: prepped first, it hands the
    win to Pizza. *)
Lemma pizza_beats_mystery :
  fst (battle (ES.ret tenth) mock_update_meal_stats
         (mkWorld [mystery; pizza] tt []))
  = inr "Pizza".
Proof.
  refine (proj2 (nan_price_goes_to_second unit (ES.ret tenth)
                   mock_update_meal_stats (mkWorld [mystery; pizza] tt [])
                   mystery pizza [] eq_refl _ _ (or_introl eq_refl)
                   tenth tt eq_refl) tt tt eq_refl eq_refl);
    unfold listed; cbn; auto.
Defined.

(** Prepping Pizza calls nobody. *)
Lemma prep_is_silent :
  env (call_method (ES.ret tenth) update_meal_stats (Prep pizza)
         (init kitchen0)) = kitchen0
  /\ trace (call_method (ES.ret tenth) update_meal_stats (Prep pizza)
              (init kitchen0)) = [].
Proof.
  refine (only_battle_calls Kitchen.Store (ES.ret tenth) update_meal_stats
            (Prep pizza) (init kitchen0) _).
  discriminate.
Defined.

(** The trace of the battle of the test: one sample, one win, one loss. *)
Lemma trace_of_the_test :
  (count_calls (is_update "loss") (trace arena1)
   <= count_calls (is_update "win") (trace arena1)
   <= count_calls is_sample (trace arena1))%nat.
Proof.
  apply (updates_follow_samples Kitchen.Store (ES.ret tenth)
           update_meal_stats arena1).
  change arena1 with
    (call_method (ES.ret tenth) update_meal_stats Battle
       (call_method (ES.ret tenth) update_meal_stats (Prep sushi)
          (call_method (ES.ret tenth) update_meal_stats (Prep pizza)
             (init kitchen0)))).
  repeat apply arena_call; apply arena_new.
Defined.

(** ** What a returning battle needed, and what the order decides *)

Lemma subscript_inr_listed (d : string) (m : Z) :
  subscript difficulty_modifier d = inr m -> listed d.
Proof.
  unfold subscript, difficulty_modifier, dict_get, listed.
  destruct (String.eqb_spec "HIGH" d) as [<-|_]; [cbn; auto|].
  destruct (String.eqb_spec "MED" d) as [<-|_]; [cbn; auto|].
  destruct (String.eqb_spec "LOW" d) as [<-|_]; [cbn; auto|].
  discriminate.
Qed.

(** Rounding does not look at the sign. *)
Lemma SFabs_binary_round (s : bool) (m : positive) (e : Z) :
  SFabs (binary_round prec emax s m e)
  = SFabs (binary_round prec emax false m e).
Proof.
  unfold binary_round, binary_round_aux.
  destruct (shl_align m e (fexp prec emax (Z.pos (digits2_pos m) + e)))
    as [mz ez].
  destruct (shr_fexp prec emax (Z.pos mz) ez loc_Exact) as [mrs e'].
  destruct (shr_fexp prec emax
              (round_nearest_even (shr_m mrs) (loc_of_shr_record mrs))
              e' loc_Exact) as [mrs2 e2].
  destruct (shr_m mrs2); try reflexivity.
  destruct (Z.leb e2 (emax - prec)); reflexivity.
Qed.

Lemma SFabs_binary_normalize_opp (z e : Z) :
  SFabs (binary_normalize prec emax (- z) e false)
  = SFabs (binary_normalize prec emax z e false).
Proof.
  destruct z as [|p|p]; cbn [Z.opp binary_normalize]; [reflexivity| |].
  - apply SFabs_binary_round.
  - symmetry; apply SFabs_binary_round.
Qed.

(** The gap between two scores is the same whichever comes first. *)
Lemma delta_of_sym (x y : float) : delta_of x y = delta_of y x.
Proof.
  unfold delta_of; f_equal; apply Prim2SF_inj.
  rewrite !FloatAxioms.abs_spec, !FloatAxioms.sub_spec.
  unfold SF64sub, SFsub.
  destruct (Prim2SF x) as [sx| sx| |sx mx ex];
    destruct (Prim2SF y) as [sy| sy| |sy my ey];
    try reflexivity;
    try (destruct sx, sy; reflexivity).
  cbv zeta.
  rewrite (Z.min_comm ey ex).
  rewrite <- SFabs_binary_normalize_opp; f_equal; f_equal; lia.
Qed.

Section BattleOrder.

Variable Env : Type.
Variable get_random : ES.t Env float.
Variable update_meal_stats : Z -> string -> ES.t Env unit.

Implicit Types (w : World Env) (c : Meal).

(** X14. A battle returns only if the roster held two combatants, both
    with a listed difficulty, and the supplier gave a sample; what it
    returns is the name of one of the first two combatants. *)
Theorem battle_returns_only_if w (name : string) :
  fst (battle get_random update_meal_stats w) = inr name ->
  exists c1 c2 rest r e1,
    combatants w = c1 :: c2 :: rest
    /\ listed (difficulty c1)
    /\ listed (difficulty c2)
    /\ get_random (env w) = (inr r, e1)
    /\ (name = meal c1 \/ name = meal c2).
Proof.
  intros Hb.
  destruct (combatants w) as [|c1 [|c2 rest]] eqn:Hc;
    try (rewrite battle_short in Hb by (rewrite Hc; cbn; lia); discriminate).
  destruct (subscript difficulty_modifier (difficulty c1)) as [e|m1] eqn:H1.
  { rewrite (battle_any_no_score _ _ _ w c1 c2 rest e Hc) in Hb by auto.
    discriminate. }
  destruct (subscript difficulty_modifier (difficulty c2)) as [e|m2] eqn:H2.
  { rewrite (battle_any_no_score _ _ _ w c1 c2 rest e Hc) in Hb by eauto.
    discriminate. }
  destruct (get_random (env w)) as [[e|r] e1] eqn:Hr.
  { rewrite (battle_any_no_sample _ _ _ w c1 c2 rest m1 m2 e e1 Hc H1 H2 Hr)
      in Hb; discriminate. }
  exists c1, c2, rest, r, e1.
  repeat split; eauto using subscript_inr_listed.
  rewrite (battle_any_run _ _ _ w c1 c2 rest m1 m2 r e1 Hc H1 H2 Hr) in Hb.
  destruct (PrimFloat.ltb r (delta_of (score_with c1 m1) (score_with c2 m2)));
    (destruct (update_meal_stats _ "win" e1) as [[e|u] e2];
     [discriminate|]);
    (destruct (update_meal_stats _ "loss" e2) as [[e|u'] e3];
     [discriminate|]);
    match type of Hb with
    | context [list_remove ?x ?l] => destruct (list_remove x l)
    end; cbn in Hb; try discriminate; injection Hb as <-; auto.
Qed.

(** X15. The delta is the same in both orders of the two combatants, so
    the order of prepping decides: on the same state of the supplier,
    either the first prepped is picked in both orders, or the second
    prepped is picked in both orders.  Swapping the combatants swaps the
    winner. *)
Theorem prep_order_decides w w' (c1 c2 : Meal) (rest rest' : list Meal) :
  combatants w = c1 :: c2 :: rest ->
  combatants w' = c2 :: c1 :: rest' ->
  env w' = env w ->
  listed (difficulty c1) ->
  listed (difficulty c2) ->
  (picks get_random update_meal_stats w c1 c2
   /\ picks get_random update_meal_stats w' c2 c1)
  \/ (picks get_random update_meal_stats w c2 c1
      /\ picks get_random update_meal_stats w' c1 c2).
Proof.
  intros Hc Hc' He H1 H2.
  destruct (subscript_listed _ H1) as [m1 Hm1].
  destruct (subscript_listed _ H2) as [m2 Hm2].
  destruct (get_random (env w)) as [[e|r] e1] eqn:Hr.
  { left; split; intros r e1' Hr'; [|rewrite He in Hr']; congruence. }
  pose proof (battle_picks_by _ get_random update_meal_stats w c1 c2 rest
                m1 m2 r e1 Hc Hm1 Hm2 Hr) as P; cbv zeta in P.
  assert (Hr' : get_random (env w') = (inr r, e1)) by (rewrite He; exact Hr).
  pose proof (battle_picks_by _ get_random update_meal_stats w' c2 c1 rest'
                m2 m1 r e1 Hc' Hm2 Hm1 Hr') as P'; cbv zeta in P'.
  rewrite (delta_of_sym (score_with c2 m2)) in P'.
  destruct (PrimFloat.ltb r (delta_of (score_with c1 m1) (score_with c2 m2)));
    [left | right]; split; intros r0 e0 Hr0.
  - rewrite Hr in Hr0; injection Hr0 as <- <-; exact P.
  - rewrite Hr' in Hr0; injection Hr0 as <- <-; exact P'.
  - rewrite Hr in Hr0; injection Hr0 as <- <-; exact P.
  - rewrite Hr' in Hr0; injection Hr0 as <- <-; exact P'.
Qed.

End BattleOrder.

(** The battle of the test returned: it had what it needed. *)
Lemma what_the_test_needed :
  exists c1 c2 rest r e1,
    combatants arena0 = c1 :: c2 :: rest
    /\ listed (difficulty c1)
    /\ listed (difficulty c2)
    /\ ES.ret tenth (env arena0) = (inr r, e1)
    /\ ("Pizza" = meal c1 \/ "Pizza" = meal c2).
Proof.
  exact (battle_returns_only_if Kitchen.Store (ES.ret tenth)
           update_meal_stats arena0 "Pizza" eq_refl).
Defined.

(** Pizza first beats Sushi, Sushi first beats Pizza, at the sample 0.1. *)
Lemma first_prepped_wins :
  (picks (ES.ret tenth) mock_update_meal_stats
     (mkWorld [pizza; sushi] tt []) pizza sushi
   /\ picks (ES.ret tenth) mock_update_meal_stats
        (mkWorld [sushi; pizza] tt []) sushi pizza)
  \/ (picks (ES.ret tenth) mock_update_meal_stats
        (mkWorld [pizza; sushi] tt []) sushi pizza
      /\ picks (ES.ret tenth) mock_update_meal_stats
           (mkWorld [sushi; pizza] tt []) pizza sushi).
Proof.
  refine (prep_order_decides unit (ES.ret tenth) mock_update_meal_stats
            (mkWorld [pizza; sushi] tt []) (mkWorld [sushi; pizza] tt [])
            pizza sushi [] [] eq_refl eq_refl eq_refl _ _);
    unfold listed; cbn; auto.
Defined.
